(** * buse-go: a block device in user space over the NBD protocol

    Shallow embedding of [buse/buse.go]: the wire codec (Go's
    [encoding/binary] applied to [nbdRequest] and [nbdReply]), the five
    operation handlers, the protocol loop of [Connect], the device control
    calls of [CreateDevice], [startNBDClient] and [Disconnect], and the
    rendezvous on the unbuffered [disconnect] channel. *)

From Stdlib Require Import ZArith List Lia Bool String.
From Stdlib Require Import Strings.Byte.
Import ListNotations.
Open Scope Z_scope.

(** ** Constants of <linux/nbd.h>, as rewritten in buse.go *)

Definition NBD_SET_SOCK : Z := Z.lor (Z.shiftl 0xab 8) 0.
Definition NBD_SET_BLKSIZE : Z := Z.lor (Z.shiftl 0xab 8) 1.
Definition NBD_SET_SIZE : Z := Z.lor (Z.shiftl 0xab 8) 2.
Definition NBD_DO_IT : Z := Z.lor (Z.shiftl 0xab 8) 3.
Definition NBD_CLEAR_SOCK : Z := Z.lor (Z.shiftl 0xab 8) 4.
Definition NBD_CLEAR_QUE : Z := Z.lor (Z.shiftl 0xab 8) 5.
Definition NBD_PRINT_DEBUG : Z := Z.lor (Z.shiftl 0xab 8) 6.
Definition NBD_SET_SIZE_BLOCKS : Z := Z.lor (Z.shiftl 0xab 8) 7.
Definition NBD_DISCONNECT : Z := Z.lor (Z.shiftl 0xab 8) 8.
Definition NBD_SET_TIMEOUT : Z := Z.lor (Z.shiftl 0xab 8) 9.
Definition NBD_SET_FLAGS : Z := Z.lor (Z.shiftl 0xab 8) 10.

Definition NBD_CMD_READ : Z := 0.
Definition NBD_CMD_WRITE : Z := 1.
Definition NBD_CMD_DISC : Z := 2.
Definition NBD_CMD_FLUSH : Z := 3.
Definition NBD_CMD_TRIM : Z := 4.

Definition NBD_FLAG_HAS_FLAGS : Z := Z.shiftl 1 0.
Definition NBD_FLAG_READ_ONLY : Z := Z.shiftl 1 1.
Definition NBD_FLAG_SEND_FLUSH : Z := Z.shiftl 1 2.
Definition NBD_FLAG_SEND_TRIM : Z := Z.shiftl 1 5.

Definition NBD_REQUEST_MAGIC : Z := 0x25609513.
Definition NBD_REPLY_MAGIC : Z := 0x67446698.

(** ** Errors *)

(** Go [error] values: nil is [None] in an [option error]. *)
Inductive error : Type :=
| EOF
| ErrUnexpectedEOF
| Errno (e : Z)
| DriverError (msg : string)
| Errorf (fmt : string) (cause : error).

(** ** Bytes and slices *)

(** Go's conversion [byte(v)]: keep the low eight bits. *)
Definition byte_of_Z (z : Z) : byte :=
  match Byte.of_N (Z.to_N (z mod 256)) with
  | Some b => b
  | None => x00
  end.

(** Go's conversion [uint32(b)] / [uint64(b)] of a byte. *)
Definition Z_of_byte (b : byte) : Z := Z.of_N (Byte.to_N b).

(** [b[lo:hi]] *)
Definition slice (b : list byte) (lo hi : nat) : list byte :=
  firstn (hi - lo) (skipn lo b).

(** [make([]byte, n)] *)
Definition make_bytes (n : Z) : list byte := repeat x00 (Z.to_nat n).

(** ** The wire codec: encoding/binary on the two headers *)

Inductive ByteOrder : Type := LittleEndian | BigEndian.

(** [order.Uint32(b)], unrolled as in encoding/binary. *)
Definition Uint32 (o : ByteOrder) (b : list byte) : Z :=
  match b with
  | b0 :: b1 :: b2 :: b3 :: _ =>
      match o with
      | BigEndian =>
          Z.lor (Z.lor (Z.lor (Z_of_byte b3) (Z.shiftl (Z_of_byte b2) 8))
                       (Z.shiftl (Z_of_byte b1) 16))
                (Z.shiftl (Z_of_byte b0) 24)
      | LittleEndian =>
          Z.lor (Z.lor (Z.lor (Z_of_byte b0) (Z.shiftl (Z_of_byte b1) 8))
                       (Z.shiftl (Z_of_byte b2) 16))
                (Z.shiftl (Z_of_byte b3) 24)
      end
  | _ => 0
  end.

(** [order.PutUint32(b, v)] on a fresh four-byte slice. *)
Definition PutUint32 (o : ByteOrder) (v : Z) : list byte :=
  match o with
  | BigEndian =>
      [byte_of_Z (Z.shiftr v 24); byte_of_Z (Z.shiftr v 16);
       byte_of_Z (Z.shiftr v 8); byte_of_Z v]
  | LittleEndian =>
      [byte_of_Z v; byte_of_Z (Z.shiftr v 8);
       byte_of_Z (Z.shiftr v 16); byte_of_Z (Z.shiftr v 24)]
  end.

(** [order.Uint64(b)] *)
Definition Uint64 (o : ByteOrder) (b : list byte) : Z :=
  match b with
  | b0 :: b1 :: b2 :: b3 :: b4 :: b5 :: b6 :: b7 :: _ =>
      match o with
      | BigEndian =>
          Z.lor (Z.lor (Z.lor (Z.lor (Z.lor (Z.lor (Z.lor
            (Z_of_byte b7) (Z.shiftl (Z_of_byte b6) 8))
            (Z.shiftl (Z_of_byte b5) 16)) (Z.shiftl (Z_of_byte b4) 24))
            (Z.shiftl (Z_of_byte b3) 32)) (Z.shiftl (Z_of_byte b2) 40))
            (Z.shiftl (Z_of_byte b1) 48)) (Z.shiftl (Z_of_byte b0) 56)
      | LittleEndian =>
          Z.lor (Z.lor (Z.lor (Z.lor (Z.lor (Z.lor (Z.lor
            (Z_of_byte b0) (Z.shiftl (Z_of_byte b1) 8))
            (Z.shiftl (Z_of_byte b2) 16)) (Z.shiftl (Z_of_byte b3) 24))
            (Z.shiftl (Z_of_byte b4) 32)) (Z.shiftl (Z_of_byte b5) 40))
            (Z.shiftl (Z_of_byte b6) 48)) (Z.shiftl (Z_of_byte b7) 56)
      end
  | _ => 0
  end.

(** [order.PutUint64(b, v)] on a fresh eight-byte slice. *)
Definition PutUint64 (o : ByteOrder) (v : Z) : list byte :=
  match o with
  | BigEndian =>
      [byte_of_Z (Z.shiftr v 56); byte_of_Z (Z.shiftr v 48);
       byte_of_Z (Z.shiftr v 40); byte_of_Z (Z.shiftr v 32);
       byte_of_Z (Z.shiftr v 24); byte_of_Z (Z.shiftr v 16);
       byte_of_Z (Z.shiftr v 8); byte_of_Z v]
  | LittleEndian =>
      [byte_of_Z v; byte_of_Z (Z.shiftr v 8);
       byte_of_Z (Z.shiftr v 16); byte_of_Z (Z.shiftr v 24);
       byte_of_Z (Z.shiftr v 32); byte_of_Z (Z.shiftr v 40);
       byte_of_Z (Z.shiftr v 48); byte_of_Z (Z.shiftr v 56)]
  end.

(** [type nbdRequest struct]: uint32 and uint64 fields are integers with
    their range kept by [wf_request]; [Handle [8]byte] is a byte list. *)
Record nbdRequest : Type := mkRequest {
  Magic : Z;
  Type_ : Z;
  Handle : list byte;
  From : Z;
  Length : Z
}.

(** [type nbdReply struct] *)
Record nbdReply : Type := mkReply {
  rMagic : Z;
  Error : Z;
  rHandle : list byte
}.

(** [binary.Size] of the two headers: the packed field sizes. *)
Definition binary_Size_request : nat := 28.
Definition binary_Size_reply : nat := 16.

(** [unsafe.Sizeof(request)]: the in-memory struct on a 64-bit host, where
    the 28 bytes of fields are padded to the 8-byte alignment of [From]. *)
Definition Sizeof_request : Z := 32.

(** The zero value [nbdRequest{}]. *)
Definition zero_request : nbdRequest :=
  mkRequest 0 0 (repeat x00 8) 0 0.

(** [binary.Read(r, order, &request)]: [io.ReadFull] of [binary.Size] bytes
    from the reader, failing when it holds fewer, then the fields in
    declaration order. *)
Definition binary_Read (o : ByteOrder) (r : list byte) : option nbdRequest :=
  if (List.length r <? binary_Size_request)%nat then None
  else
    let bs := firstn binary_Size_request r in
    Some (mkRequest (Uint32 o (slice bs 0 4))
                    (Uint32 o (slice bs 4 8))
                    (slice bs 8 16)
                    (Uint64 o (slice bs 16 24))
                    (Uint32 o (slice bs 24 28))).

(** The 16 bytes of a reply header, fields in declaration order. *)
Definition encode_reply (o : ByteOrder) (reply : nbdReply) : list byte :=
  PutUint32 o (rMagic reply) ++ PutUint32 o (Error reply)
    ++ firstn 8 (rHandle reply).

(** [binary.Write(w, order, reply)] into a [bytes.Buffer]: the written bytes
    and the returned error, which is nil for a struct of fixed-size fields. *)
Definition binary_Write (o : ByteOrder) (reply : nbdReply)
  : list byte * option error :=
  (encode_reply o reply, None).

(** The same encoder applied to a request header (what the kernel side of
    the channel produces; buse.go itself only decodes requests). *)
Definition binary_Write_request (o : ByteOrder) (q : nbdRequest) : list byte :=
  PutUint32 o (Magic q) ++ PutUint32 o (Type_ q) ++ firstn 8 (Handle q)
    ++ PutUint64 o (From q) ++ PutUint32 o (Length q).

(** A request value as the Go type admits it. *)
Definition wf_request (q : nbdRequest) : Prop :=
  0 <= Magic q < 2 ^ 32 /\ 0 <= Type_ q < 2 ^ 32 /\
  List.length (Handle q) = 8%nat /\
  0 <= From q < 2 ^ 64 /\ 0 <= Length q < 2 ^ 32.

(** ** The byte order chosen at process start *)

Inductive host : Type := LittleEndianHost | BigEndianHost.

(** The memory image of an [int] on the host, least address first. *)
Definition int_image (h : host) (i : Z) : list byte :=
  match h with
  | LittleEndianHost => PutUint64 LittleEndian i
  | BigEndianHost => PutUint64 BigEndian i
  end.

(** [func init()]: probes the first byte of [i = 0x1] and sets [Endian]. *)
Definition init (h : host) : ByteOrder :=
  let byteList := int_image h 0x1 in
  if Byte.eqb (nth 0 byteList x00) x00 then BigEndian else BigEndian.

(** ** The process and its environment *)

(** What one [fp.Read] on the user end of the socket pair delivers: some
    bytes of the stream, as many as the kernel has ready (cut to the length
    of the buffer read into), or an error. *)
Inductive read_result : Type :=
| RdOk (bs : list byte)
| RdErr (e : error).

Inductive event : Type :=
| EvRead (bs : list byte)                  (* fp.Read delivered bs *)
| EvReadErr (e : error)                    (* fp.Read failed *)
| EvWrite (bs : list byte) (r : option error)   (* fp.Write(bs) and its result *)
| EvLog (msg : string) (cause : option error)   (* log.Println *)
| EvFatalf (msg : string) (e : Z)          (* log.Fatalf *)
| EvIoctl (fd op arg errno : Z)            (* SYS_IOCTL and its errno *)
| EvGoIoctl (fd op arg : Z)                (* go ioctl(...): the blocking attach *)
| EvSocketpair (r : option error)
| EvOpenFile (path : string) (r : option error)
| EvOpen (path : string) (r : option error)
| EvClose (fd : Z)                         (* syscall.Close / File.Close *)
| EvSend                                   (* bd.disconnect <- 1 went through *)
| EvReadAt (len : nat) (off : Z)           (* driver.ReadAt *)
| EvWriteAt (p : list byte) (off : Z)      (* driver.WriteAt *)
| EvFlush                                  (* driver.Flush *)
| EvTrim (off len : Z)                     (* driver.Trim *)
| EvDriverDisconnect.                      (* driver.Disconnect *)

(** The byte strings handed to [fp.Write], in order, and all of them in
    one stream. *)
Definition written (t : list event) : list (list byte) :=
  flat_map (fun e => match e with EvWrite bs _ => [bs] | _ => [] end) t.

Definition emitted (t : list event) : list byte := List.concat (written t).

(** The events of serving requests: channel traffic, backend calls and log
    lines, as against the control calls, closes and the send of setup and
    teardown. *)
Definition is_serving (e : event) : bool :=
  match e with
  | EvRead _ | EvReadErr _ | EvWrite _ _ | EvLog _ _
  | EvReadAt _ _ | EvWriteAt _ _ | EvFlush | EvTrim _ _
  | EvDriverDisconnect => true
  | _ => false
  end.

(** How a computation ends when it does not return to its caller. *)
Inductive halt : Type :=
| ExitFatal      (* log.Fatalf: os.Exit(1), deferred calls do not run *)
| PanicIndex     (* index out of range; deferred calls run, then the panic goes on *)
| Blocked        (* parked for ever on a read or a channel send *)
| OutOfFuel.     (* the model's iteration bound, never reached by [Connect] *)

Inductive res (A : Type) : Type :=
| Val (a : A)
| Halt (h : halt).
Arguments Val {A} a.
Arguments Halt {A} h.

Section Device.

(** The host the process runs on, and the backend's state. *)
Variable arch : host.
Context {St : Type}.

(** [var Endian binary.ByteOrder], as [init] leaves it. *)
Definition Endian : ByteOrder := init arch.

(** [type BuseInterface interface]: the backend, a state machine over [St].
    [ReadAt] also returns the buffer as the backend left it. *)
Record BuseInterface : Type := {
  ReadAt : St -> list byte -> Z -> St * list byte * option error;
  WriteAt : St -> list byte -> Z -> St * option error;
  drvDisconnect : St -> St;
  Flush : St -> St * option error;
  Trim : St -> Z -> Z -> St * option error
}.

Record world : Type := mkWorld {
  chan_in : list read_result;      (* what the coming fp.Read calls deliver *)
  chan_out : list (option error);  (* results of the coming fp.Write calls *)
  ioctl_res : Z -> Z -> Z;         (* errno of ioctl(op, arg) on the device *)
  socketpair_res : (Z * Z) + error;
  openfile_res : Z + error;        (* os.OpenFile(device, O_RDWR) *)
  open_res : Z + error;            (* os.Open(bd.device) *)
  drv : St;                         (* the backend's state *)
  receivers : nat;                 (* goroutines parked on <-bd.disconnect *)
  trace : list event               (* oldest first *)
}.

Definition M (A : Type) : Type := world -> res A * world.

Definition ret {A} (a : A) : M A := fun w => (Val a, w).

Definition bind {A B} (m : M A) (k : A -> M B) : M B :=
  fun w => match m w with
           | (Val a, w') => k a w'
           | (Halt h, w') => (Halt h, w')
           end.

Definition stop {A} (h : halt) : M A := fun w => (Halt h, w).

Definition emit (e : event) : M unit :=
  fun w => (Val tt,
            mkWorld (chan_in w) (chan_out w) (ioctl_res w) (socketpair_res w)
                    (openfile_res w) (open_res w) (drv w) (receivers w)
                    (trace w ++ [e])).

Definition set_chan_in (c : list read_result) : M unit :=
  fun w => (Val tt,
            mkWorld c (chan_out w) (ioctl_res w) (socketpair_res w)
                    (openfile_res w) (open_res w) (drv w) (receivers w)
                    (trace w)).

Definition set_chan_out (c : list (option error)) : M unit :=
  fun w => (Val tt,
            mkWorld (chan_in w) c (ioctl_res w) (socketpair_res w)
                    (openfile_res w) (open_res w) (drv w) (receivers w)
                    (trace w)).

Definition set_drv (s : St) : M unit :=
  fun w => (Val tt,
            mkWorld (chan_in w) (chan_out w) (ioctl_res w) (socketpair_res w)
                    (openfile_res w) (open_res w) s (receivers w)
                    (trace w)).

Definition set_receivers (n : nat) : M unit :=
  fun w => (Val tt,
            mkWorld (chan_in w) (chan_out w) (ioctl_res w) (socketpair_res w)
                    (openfile_res w) (open_res w) (drv w) n
                    (trace w)).

Definition get {A} (f : world -> A) : M A := fun w => (Val (f w), w).

End Device.

Arguments world St : clear implicits.
Arguments M St A : clear implicits.
Arguments BuseInterface St : clear implicits.

Declare Scope buse_scope.
Delimit Scope buse_scope with buse.
Notation "x <- m ;; k" := (bind m (fun x => k))
  (at level 61, m at next level, right associativity) : buse_scope.
Notation "m ;; k" := (bind m (fun _ => k))
  (at level 61, right associativity) : buse_scope.

Open Scope string_scope.
Open Scope list_scope.
Open Scope Z_scope.
Open Scope buse_scope.

Section Server.

Variable arch : host.
Context {St : Type}.

(** *** The runtime and system calls buse.go uses *)

(** [log.Println(msg, err)] *)
Definition log_Println (msg : string) (cause : option error) : M St unit :=
  emit (EvLog msg cause).

(** [log.Fatalf]: prints, then [os.Exit(1)]. *)
Definition log_Fatalf {A} (msg : string) (e : Z) : M St A :=
  emit (EvFatalf msg e) ;; stop ExitFatal.

(** [fp.Read(b)] on the user end of the socket pair: the buffer as the call
    leaves it, the byte count and the error.  A zero-length buffer returns
    at once; a delivery of no byte is end of file; a read on a channel with
    nothing more to come never returns. *)
Definition fp_Read (b : list byte) : M St (list byte * nat * option error) :=
  if (List.length b =? 0)%nat then ret (b, 0%nat, None)
  else
    c <- get chan_in ;;
    match c with
    | [] => stop Blocked
    | RdErr e :: c' =>
        set_chan_in c' ;; emit (EvReadErr e) ;; ret (b, 0%nat, Some e)
    | RdOk bs :: c' =>
        let d := firstn (List.length b) bs in
        set_chan_in c' ;;
        match d with
        | [] => emit (EvReadErr EOF) ;; ret (b, 0%nat, Some EOF)
        | _ :: _ =>
            emit (EvRead d) ;;
            ret ((d ++ skipn (List.length d) b)%list, List.length d, None)
        end
    end.

(** [fp.Write(bs)]: the attempt is recorded with its result; results not
    listed in [chan_out] are successes. *)
Definition fp_Write (bs : list byte) : M St (option error) :=
  c <- get chan_out ;;
  match c with
  | [] => emit (EvWrite bs None) ;; ret None
  | r :: c' => set_chan_out c' ;; emit (EvWrite bs r) ;; ret r
  end.

(** [syscall.Syscall(syscall.SYS_IOCTL, fd, op, arg)]: the errno. *)
Definition Syscall_ioctl (fd op arg : Z) : M St Z :=
  f <- get ioctl_res ;;
  emit (EvIoctl fd op arg (f op arg)) ;; ret (f op arg).

(** [func ioctl(fd, op, arg uintptr)] *)
Definition ioctl (fd op arg : Z) : M St unit :=
  ep <- Syscall_ioctl fd op arg ;;
  if negb (ep =? 0) then log_Fatalf "ioctl(%d, %d, %d) failed: %s" ep
  else ret tt.

(** [syscall.Close(fd)] and [deviceFp.Close()], results ignored. *)
Definition sys_Close (fd : Z) : M St unit := emit (EvClose fd).

(** [bd.disconnect <- 1] on the unbuffered channel: goes through when a
    goroutine is parked on the receive, and takes that receiver with it;
    otherwise the sender parks for ever. *)
Definition chan_send : M St unit :=
  n <- get receivers ;;
  match n with
  | O => stop Blocked
  | S n' => set_receivers n' ;; emit EvSend
  end.

(** [uint(x)] of a uint64 on a 64-bit host. *)
Definition uint (x : Z) : Z := x mod 2 ^ 64.

(** *** The backend seen from the handlers *)

Variable buseDriver : BuseInterface St.

Definition driver_ReadAt (p : list byte) (off : Z)
  : M St (list byte * option error) :=
  s <- get drv ;;
  emit (EvReadAt (List.length p) off) ;;
  let '(s', p', err) := ReadAt buseDriver s p off in
  set_drv s' ;; ret (p', err).

Definition driver_WriteAt (p : list byte) (off : Z) : M St (option error) :=
  s <- get drv ;;
  emit (EvWriteAt p off) ;;
  let '(s', err) := WriteAt buseDriver s p off in
  set_drv s' ;; ret err.

Definition driver_Flush : M St (option error) :=
  s <- get drv ;;
  emit EvFlush ;;
  let '(s', err) := Flush buseDriver s in
  set_drv s' ;; ret err.

Definition driver_Trim (off len : Z) : M St (option error) :=
  s <- get drv ;;
  emit (EvTrim off len) ;;
  let '(s', err) := Trim buseDriver s off len in
  set_drv s' ;; ret err.

Definition driver_Disconnect : M St unit :=
  s <- get drv ;;
  emit EvDriverDisconnect ;;
  set_drv (drvDisconnect buseDriver s).

(** *** The five handlers

    A handler takes the chunk, the request and the reply the loop owns, and
    returns the reply as it leaves it together with its Go return value.
    Its [fp] argument is the one channel of the world. *)

Definition handler : Type :=
  list byte -> nbdRequest -> nbdReply -> M St (nbdReply * option error).

Definition set_Error (e : Z) (reply : nbdReply) : nbdReply :=
  mkReply (rMagic reply) e (rHandle reply).

Definition set_Handle (h : list byte) (reply : nbdReply) : nbdReply :=
  mkReply (rMagic reply) (Error reply) h.

(** The tail shared by the four replying handlers: encode the reply and
    write the header, logging a failed write. *)
Definition send_header (reply : nbdReply) (k : M St (nbdReply * option error))
  : M St (nbdReply * option error) :=
  let '(bufB, err) := binary_Write (Endian arch) reply in
  match err with
  | Some e =>
      ret (reply, Some (Errorf "Fatal error, cannot write reply packet: %s" e))
  | None =>
      werr <- fp_Write bufB ;;
      match werr with
      | Some e => log_Println "Write error, when sending reply header:" (Some e)
      | None => ret tt
      end ;;
      k
  end.

Definition opDeviceRead : handler := fun chunk request reply =>
  r <- driver_ReadAt chunk (uint (From request)) ;;
  let '(chunk, err) := r in
  reply <- match err with
           | Some e =>
               log_Println "buseDriver.ReadAt returned an error:" (Some e) ;;
               ret (set_Error 1 reply)
           | None => ret reply
           end ;;
  send_header reply
    (werr <- fp_Write chunk ;;
     match werr with
     | Some e => log_Println "Write error, when sending data chunk:" (Some e)
     | None => ret tt
     end ;;
     ret (reply, None)).

Definition opDeviceWrite : handler := fun chunk request reply =>
  r <- fp_Read chunk ;;
  let '(chunk, _, rerr) := r in
  match rerr with
  | Some e =>
      ret (reply, Some (Errorf "Fatal error, cannot read request packet: %s" e))
  | None =>
      err <- driver_WriteAt chunk (uint (From request)) ;;
      reply <- match err with
               | Some e =>
                   log_Println "buseDriver.WriteAt returned an error:" (Some e) ;;
                   ret (set_Error 1 reply)
               | None => ret reply
               end ;;
      send_header reply (ret (reply, None))
  end.

Definition opDeviceDisconnect : handler := fun chunk request reply =>
  log_Println "Calling buseDriver.Disconnect()" None ;;
  driver_Disconnect ;;
  ret (reply, None).

Definition opDeviceFlush : handler := fun chunk request reply =>
  err <- driver_Flush ;;
  reply <- match err with
           | Some e =>
               log_Println "buseDriver.Flush returned an error:" (Some e) ;;
               ret (set_Error 1 reply)
           | None => ret reply
           end ;;
  send_header reply (ret (reply, None)).

Definition opDeviceTrim : handler := fun chunk request reply =>
  err <- driver_Trim (uint (From request)) (uint (Length request)) ;;
  reply <- match err with
           | Some e =>
               log_Println "buseDriver.Flush returned an error:" (Some e) ;;
               ret (set_Error 1 reply)
           | None => ret reply
           end ;;
  send_header reply (ret (reply, None)).


(** *** The device *)

(** [type BuseDevice struct].  The [disconnect chan int] field is the
    channel whose parked receivers the world counts. *)
Record BuseDevice : Type := mkDevice {
  size : Z;
  device : string;
  driver : BuseInterface St;
  deviceFp : Z;
  socketPair : Z * Z;
  op : list handler
}.

(** [<-bd.disconnect]: the goroutine parks on the receive. *)
Definition chan_park : M St unit :=
  n <- get receivers ;; set_receivers (S n).

(** [func (bd *BuseDevice) startNBDClient()].  [go ioctl(fd, NBD_DO_IT, 0)]
    hands the blocking attach to its own goroutine. *)
Definition startNBDClient (bd : BuseDevice) : M St unit :=
  ioctl (deviceFp bd) NBD_SET_SOCK (snd (socketPair bd)) ;;
  ioctl (deviceFp bd) NBD_SET_FLAGS NBD_FLAG_SEND_TRIM ;;
  log_Println "Starting NBD client..." None ;;
  emit (EvGoIoctl (deviceFp bd) NBD_DO_IT 0) ;;
  chan_park.

(** [func (bd *BuseDevice) Disconnect()], one entry per statement. *)
Definition Disconnect_steps (bd : BuseDevice) : list (M St unit) :=
  [ chan_send;
    (Syscall_ioctl (deviceFp bd) NBD_CLEAR_QUE 0 ;; ret tt);
    (Syscall_ioctl (deviceFp bd) NBD_CLEAR_SOCK 0 ;; ret tt);
    sys_Close (fst (socketPair bd));
    sys_Close (snd (socketPair bd));
    sys_Close (deviceFp bd);
    log_Println "NBD client disconnected" None ].

Fixpoint run_steps (l : list (M St unit)) : M St unit :=
  match l with
  | [] => ret tt
  | a :: l' => a ;; run_steps l'
  end.

Definition Disconnect (bd : BuseDevice) : M St unit :=
  run_steps (Disconnect_steps bd).

(** [defer d] around [body]: [d] runs when the body returns and when it
    panics, not when the process exits or the body never returns. *)
Definition deferred {A} (d : M St unit) (body : M St A) : M St A :=
  fun w =>
    match body w with
    | (Val a, w') =>
        match d w' with
        | (Val _, w'') => (Val a, w'')
        | (Halt h, w'') => (Halt h, w'')
        end
    | (Halt PanicIndex, w') =>
        match d w' with
        | (Val _, w'') => (Halt PanicIndex, w'')
        | (Halt h, w'') => (Halt h, w'')
        end
    | (Halt h, w') => (Halt h, w')
    end.

(** [os.Open(bd.device)] *)
Definition os_Open (path : string) : M St (Z + error) :=
  r <- get open_res ;;
  emit (EvOpen path (match r with inl _ => None | inr e => Some e end)) ;;
  ret r.

(** The variables the loop of [Connect] keeps from one pass to the next. *)
Record locals : Type := mkLocals {
  buf : list byte;
  request : nbdRequest;
  reply : nbdReply
}.

Inductive flow : Type :=
| Continue (l : locals)          (* back to the head of the loop *)
| Return (e : option error).     (* [return e] out of Connect *)

(** One pass through the body of [for true { ... }]. *)
Definition loop_body (bd : BuseDevice) (l : locals) : M St flow :=
  r <- fp_Read (buf l) ;;
  let '(buf, _, err) := r in
  match err with
  | Some e => log_Println "NBD server stopped:" (Some e) ;; ret (Return None)
  | None =>
      request <- match binary_Read (Endian arch) buf with
                 | Some q => ret q
                 | None =>
                     log_Println "Received invalid NBD request:"
                                 (Some ErrUnexpectedEOF) ;;
                     ret (request l)
                 end ;;
      let reply := set_Handle (Handle request) (reply l) in
      let chunk := make_bytes (Length request) in
      let reply := set_Error 0 reply in
      match nth_error (op bd) (Z.to_nat (Type_ request)) with
      | None => stop PanicIndex
      | Some h =>
          r <- h chunk request reply ;;
          let '(reply, err) := r in
          match err with
          | Some e => ret (Return (Some e))
          | None => ret (Continue (mkLocals buf request reply))
          end
      end
  end.

(** The loop, bounded by [fuel] passes. *)
Fixpoint serve (fuel : nat) (bd : BuseDevice) (l : locals)
  : M St (option error) :=
  match fuel with
  | O => stop OutOfFuel
  | S n =>
      f <- loop_body bd l ;;
      match f with
      | Continue l' => serve n bd l'
      | Return e => ret e
      end
  end.

(** The loop from its head: every pass takes one delivery off the channel,
    so one pass more than there are deliveries is always enough. *)
Definition serve_all (bd : BuseDevice) (l : locals) : M St (option error) :=
  c <- get chan_in ;; serve (S (List.length c)) bd l.

(** [Connect] after its [defer]: the probe of the device node, then the
    loop. *)
Definition Connect_body (bd : BuseDevice) : M St (option error) :=
  r <- os_Open (device bd) ;;
  match r with
  | inr e => ret (Some (Errorf "Cannot reach the device %s: %s" e))
  | inl tmp =>
      sys_Close tmp ;;
      let request := zero_request in
      let reply := mkReply NBD_REPLY_MAGIC 0 (repeat x00 8) in
      let buf := make_bytes Sizeof_request in
      serve_all bd (mkLocals buf request reply)
  end.

(** [func (bd *BuseDevice) Connect() error].  The goroutine started by
    [go bd.startNBDClient()] is taken up to its receive before the body goes
    on: the kernel sends no request before NBD_DO_IT. *)
Definition Connect (bd : BuseDevice) : M St (option error) :=
  startNBDClient bd ;;
  deferred (Disconnect bd) (Connect_body bd).

(** The [op] array as the five assignments of [CreateDevice] fill it,
    indexed by NBD_CMD_READ .. NBD_CMD_TRIM. *)
Definition dispatch_table : list handler :=
  [opDeviceRead; opDeviceWrite; opDeviceDisconnect; opDeviceFlush;
   opDeviceTrim].

(** [func CreateDevice(device, size, buseDriver)]: the returned pointer
    (nil is [None]) and error. *)
Definition CreateDevice (device : string) (size : Z)
  : M St (option BuseDevice * option error) :=
  sp <- get socketpair_res ;;
  emit (EvSocketpair (match sp with inl _ => None | inr e => Some e end)) ;;
  match sp with
  | inr e => ret (None, Some (Errorf "Call to socketpair failed: %s" e))
  | inl sockPair =>
      f <- get openfile_res ;;
      emit (EvOpenFile device (match f with inl _ => None | inr e => Some e end)) ;;
      match f with
      | inr e =>
          ret (None,
               Some (Errorf "Cannot open %s. Make sure the nbd kernel module is loaded: %s" e))
      | inl fp =>
          ioctl fp NBD_SET_SIZE size ;;
          ioctl fp NBD_CLEAR_QUE 0 ;;
          ioctl fp NBD_CLEAR_SOCK 0 ;;
          set_receivers 0 ;;
          ret (Some (mkDevice size device buseDriver fp sockPair
                       dispatch_table),
               None)
      end
  end.

(** *** Two callers of [Disconnect] at once

    The deferred call of [Connect] and a call from outside, each at some
    statement of [Disconnect], over the one shared world.  A statement that
    cannot go on (the send without a receiver) leaves its caller where it
    is. *)

Inductive path : Type := LoopPath | ExternalPath.

Record race : Type := mkRace {
  shared : world St;
  loop_rest : list (M St unit);
  ext_rest : list (M St unit)
}.

Definition race_step (p : path) (r : race) : option race :=
  match p with
  | LoopPath =>
      match loop_rest r with
      | [] => None
      | a :: rest =>
          match a (shared r) with
          | (Val _, w') => Some (mkRace w' rest (ext_rest r))
          | (Halt _, _) => None
          end
      end
  | ExternalPath =>
      match ext_rest r with
      | [] => None
      | a :: rest =>
          match a (shared r) with
          | (Val _, w') => Some (mkRace w' (loop_rest r) rest)
          | (Halt _, _) => None
          end
      end
  end.

(** A schedule names the caller that moves next; a caller that cannot move
    is passed over. *)
Fixpoint race_run (sched : list path) (r : race) : race :=
  match sched with
  | [] => r
  | p :: sched' =>
      match race_step p r with
      | Some r' => race_run sched' r'
      | None => race_run sched' r
      end
  end.

Definition race_init (bd : BuseDevice) (w : world St) : race :=
  mkRace w (Disconnect_steps bd) (Disconnect_steps bd).

(** Neither caller can move any more. *)
Definition race_over (r : race) : Prop :=
  race_step LoopPath r = None /\ race_step ExternalPath r = None.

(** *** What the properties below speak of *)

(** What a handler that answers leaves behind: it returns nil, the reply it
    sent has error 1 exactly when the backend failed, the first thing it
    wrote is that reply's header, followed by [payload], and it took nothing
    off the channel. *)
Definition answered (failed : bool) (payload : list (list byte))
    (rep : nbdReply) (w : world St)
    (out : res (nbdReply * option error) * world St) : Prop :=
  let rep' := if failed then set_Error 1 rep else rep in
  exists t,
    fst out = Val (rep', None) /\
    trace (snd out) = trace w ++ t /\
    written t = encode_reply (Endian arch) rep' :: payload /\
    chan_in (snd out) = chan_in w /\
    receivers (snd out) = receivers w /\
    ioctl_res (snd out) = ioctl_res w.

Definition failed_of (e : option error) : bool :=
  match e with Some _ => true | None => false end.

(** The chunk the backend is called on for request [q] when the world is
    [w] at the dispatch: fresh for every operation, and for WRITE as the
    payload read leaves it. *)
Definition chunk_for (q : nbdRequest) (w : world St) : list byte :=
  if Type_ q =? NBD_CMD_WRITE then
    match fp_Read (make_bytes (Length q)) w with
    | (Val (c, _, _), _) => c
    | (Halt _, _) => make_bytes (Length q)
    end
  else make_bytes (Length q).

(** Whether the backend operation of request [q] fails in backend state
    [s]. *)
Definition backend_failed (q : nbdRequest) (chunk : list byte) (s : St) : bool :=
  if Type_ q =? NBD_CMD_READ then
    failed_of (snd (ReadAt buseDriver s chunk (uint (From q))))
  else if Type_ q =? NBD_CMD_WRITE then
    failed_of (snd (WriteAt buseDriver s chunk (uint (From q))))
  else if Type_ q =? NBD_CMD_FLUSH then
    failed_of (snd (Flush buseDriver s))
  else if Type_ q =? NBD_CMD_TRIM then
    failed_of (snd (Trim buseDriver s (uint (From q)) (uint (Length q))))
  else false.

(** World [w] after a read took one delivery off the channel, leaving
    [c'] to come, and logged event [e]. *)
Definition after_read (c' : list read_result) (e : event) (w : world St)
  : world St :=
  mkWorld c' (chan_out w) (ioctl_res w) (socketpair_res w) (openfile_res w)
          (open_res w) (drv w) (receivers w) (trace w ++ [e]).

(** World [w] once [Disconnect] has run to its end with a receiver parked:
    the receiver is gone and the events of the run are logged. *)
Definition after_Disconnect (evs : list event) (w : world St) : world St :=
  mkWorld (chan_in w) (chan_out w) (ioctl_res w) (socketpair_res w)
          (openfile_res w) (open_res w) (drv w) (pred (receivers w))
          (trace w ++ evs).

(** The events of one run of [Disconnect] to its end in world [w]. *)
Definition Disconnect_events (bd : BuseDevice) (w : world St) : list event :=
  [ EvSend;
    EvIoctl (deviceFp bd) NBD_CLEAR_QUE 0 (ioctl_res w NBD_CLEAR_QUE 0);
    EvIoctl (deviceFp bd) NBD_CLEAR_SOCK 0 (ioctl_res w NBD_CLEAR_SOCK 0);
    EvClose (fst (socketPair bd));
    EvClose (snd (socketPair bd));
    EvClose (deviceFp bd);
    EvLog "NBD client disconnected" None ].

(** World [w] with the events [evs] added to its trace, and with one more
    goroutine parked on the disconnect channel. *)
Definition logged (evs : list event) (w : world St) : world St :=
  mkWorld (chan_in w) (chan_out w) (ioctl_res w) (socketpair_res w)
          (openfile_res w) (open_res w) (drv w) (receivers w)
          (trace w ++ evs).




(** A computation that never ends on the model's iteration bound. *)
Definition within_fuel {A} (m : M St A) : Prop :=
  forall w, fst (m w) <> Halt OutOfFuel.

(** The shared world once one caller of [Disconnect] has got through its
    first [k] statements, from world [w]. *)
Definition race_world (bd : BuseDevice) (k : nat) (w : world St) : world St :=
  mkWorld (chan_in w) (chan_out w) (ioctl_res w) (socketpair_res w)
          (openfile_res w) (open_res w) (drv w)
          (match k with O => receivers w | S _ => pred (receivers w) end)
          (trace w ++ firstn k (Disconnect_events bd w)).

(** What every schedule keeps: one caller is [k] statements into
    [Disconnect], the other has not got past its send. *)
Definition race_inv (bd : BuseDevice) (w : world St) (r : race) : Prop :=
  exists k, (k <= 7)%nat /\
    shared r = race_world bd k w /\
    ((loop_rest r = skipn k (Disconnect_steps bd) /\
      ext_rest r = Disconnect_steps bd) \/
     (ext_rest r = skipn k (Disconnect_steps bd) /\
      loop_rest r = Disconnect_steps bd)).

End Server.

(** ** A sample backend and sample worlds *)

(** A backend that counts its calls, fills read buffers with 0xff, and
    fails every operation when [fail] is set. *)
Definition counting_driver (fail : bool) : BuseInterface nat :=
  Build_BuseInterface
    (fun s p off =>
       (S s, map (fun _ => xff) p,
        if fail then Some (DriverError "read failed") else None))
    (fun s p off =>
       (S s, if fail then Some (DriverError "write failed") else None))
    (fun s => S s)
    (fun s => (S s, if fail then Some (DriverError "flush failed") else None))
    (fun s off len =>
       (S s, if fail then Some (DriverError "trim failed") else None)).

(** A process about to serve: the deliveries [ins] are to come on the
    channel, the control calls answer with [io], and [rc] goroutines are
    parked on the disconnect channel. *)
Definition sample_world (ins : list read_result) (io : Z -> Z -> Z) (rc : nat)
  : world nat :=
  mkWorld ins [] io (inl (3, 4)) (inl 5) (inl 6) 0%nat rc [].

Definition io_ok : Z -> Z -> Z := fun _ _ => 0.

(** Control calls that fail with EINVAL on operation [bad]. *)
Definition io_rejects (bad : Z) : Z -> Z -> Z :=
  fun op _ => if op =? bad then 22 else 0.

(** The device [CreateDevice] builds over [sample_world]. *)
Definition sample_device (fail : bool) : BuseDevice (St := nat) :=
  mkDevice 1048576 "/dev/nbd0" (counting_driver fail) 5 (3, 4)
           (dispatch_table LittleEndianHost (counting_driver fail)).

(** A request header as the kernel sends it. *)
Definition sample_request (type from len : Z) : nbdRequest :=
  mkRequest NBD_REQUEST_MAGIC type
            [x01; x02; x03; x04; x05; x06; x07; x08] from len.

Definition sample_header (type from len : Z) : list byte :=
  binary_Write_request BigEndian (sample_request type from len).

(** The loop's variables when [Connect] enters the loop. *)
Definition initial_locals : locals :=
  mkLocals (make_bytes Sizeof_request) zero_request
           (mkReply NBD_REPLY_MAGIC 0 (repeat x00 8)).

(** The world and the request buffer once the loop has read a header in
    world [w]. *)
Definition after_header (w : world nat) : world nat :=
  snd (fp_Read (buf initial_locals) w).

Definition header_buf (w : world nat) : list byte :=
  match fst (fp_Read (buf initial_locals) w) with
  | Val (b, _, _) => b
  | Halt _ => []
  end.

(** One FLUSH request is to come. *)
Definition flush_world : world nat :=
  sample_world [RdOk (sample_header NBD_CMD_FLUSH 0 0)] io_ok 1.

(** One READ request of two bytes at offset 0 is to come. *)
Definition read_world : world nat :=
  sample_world [RdOk (sample_header NBD_CMD_READ 0 2)] io_ok 1.


(** A WRITE request of two bytes is to come, and the first read after it
    delivers one byte of the payload. *)
Definition short_write_world : world nat :=
  sample_world [RdOk (sample_header NBD_CMD_WRITE 0 2); RdOk [x07]; RdOk [x09]]
               io_ok 1.

(** A request with operation code 7 is to come. *)
Definition unknown_world : world nat :=
  sample_world [RdOk (sample_header 7 0 0)] io_ok 1.

(** A FLUSH, then a READ of two bytes, then the kernel closes its end. *)
Definition flush_read_world : world nat :=
  sample_world [RdOk (sample_header NBD_CMD_FLUSH 0 0);
                RdOk (sample_header NBD_CMD_READ 0 2); RdErr EOF] io_ok 0.

(** ** The spec's sentences where the code departs from them *)


(** The spec on construction: a node that cannot be opened or a rejected
    size control call is reported to the caller as an error. *)
Definition construction_reports_failure (arch : host) {St : Type}
    (drv : BuseInterface St) (device : string) (size : Z) (w : world St)
  : Prop :=
  (exists e, openfile_res w = inr e) \/
  (exists fp, openfile_res w = inl fp /\ ioctl_res w NBD_SET_SIZE size <> 0) ->
  exists e w', CreateDevice arch drv device size w = (Val (None, Some e), w').

(** The spec on racing disconnects: neither caller parks for ever, that
    is, some schedule lets both callers return from [Disconnect]. *)
Definition both_callers_return {St : Type} (bd : BuseDevice (St := St))
    (w : world St) : Prop :=
  exists sched,
    loop_rest (race_run sched (race_init bd w)) = [] /\
    ext_rest (race_run sched (race_init bd w)) = [].

(** ** Further sample worlds *)

(** A DISCONNECT request is to come, then a FLUSH. *)
Definition disc_world : world nat :=
  sample_world [RdOk (sample_header NBD_CMD_DISC 0 0);
                RdOk (sample_header NBD_CMD_FLUSH 0 0)] io_ok 1.

(** The kernel has closed its end of the channel. *)
Definition closed_world : world nat :=
  sample_world [RdErr EOF] io_ok 1.

(** A WRITE request of no byte is to come, then a FLUSH. *)
Definition empty_write_world : world nat :=
  sample_world [RdOk (sample_header NBD_CMD_WRITE 512 0);
                RdOk (sample_header NBD_CMD_FLUSH 0 0)] io_ok 1.

(** A FLUSH request is to come and the write of its reply fails with
    EPIPE. *)
Definition broken_pipe_world : world nat :=
  mkWorld [RdOk (sample_header NBD_CMD_FLUSH 0 0)] [Some (Errno 32)] io_ok
          (inl (3, 4)) (inl 5) (inl 6) 0%nat 1%nat [].


(** No socket pair can be had. *)
Definition no_socket_world : world nat :=
  mkWorld [] [] io_ok (inr (Errno 24)) (inl 5) (inl 6) 0%nat 0%nat [].

(** A request header with a magic that is not the request magic. *)
Definition bad_magic_header : list byte :=
  binary_Write_request BigEndian
    (mkRequest 0xdeadbeef NBD_CMD_FLUSH
               [x01; x02; x03; x04; x05; x06; x07; x08] 0 0).

(** ** The calls that reach the backend *)

Definition is_backend (e : event) : bool :=
  match e with
  | EvReadAt _ _ | EvWriteAt _ _ | EvFlush | EvTrim _ _
  | EvDriverDisconnect => true
  | _ => false
  end.

(** The backend call request [q] stands for, on the chunk [chunk]. *)
Definition backend_call_of (q : nbdRequest) (chunk : list byte) : list event :=
  if Type_ q =? NBD_CMD_READ then
    [EvReadAt (Z.to_nat (Length q)) (uint (From q))]
  else if Type_ q =? NBD_CMD_WRITE then [EvWriteAt chunk (uint (From q))]
  else if Type_ q =? NBD_CMD_DISC then [EvDriverDisconnect]
  else if Type_ q =? NBD_CMD_FLUSH then [EvFlush]
  else if Type_ q =? NBD_CMD_TRIM then
    [EvTrim (uint (From q)) (uint (Length q))]
  else [].

(** A header of which the kernel delivers the first eight bytes only. *)
Definition short_header_world : world nat :=
  sample_world [RdOk (firstn 8 (sample_header NBD_CMD_FLUSH 0 0))] io_ok 1.

(** The loop's variables after a READ at offset 4096 with another handle. *)
Definition stale_locals : locals :=
  mkLocals
    (binary_Write_request BigEndian
       (mkRequest NBD_REQUEST_MAGIC NBD_CMD_READ
                  [xa1; xa2; xa3; xa4; xa5; xa6; xa7; xa8] 4096 2)
     ++ [x00; x00; x00; x00])
    (mkRequest NBD_REQUEST_MAGIC NBD_CMD_READ
               [xa1; xa2; xa3; xa4; xa5; xa6; xa7; xa8] 4096 2)
    (mkReply NBD_REPLY_MAGIC 0 [xa1; xa2; xa3; xa4; xa5; xa6; xa7; xa8]).

(** ** Events of a loop that decodes every header *)

(** Every serving event but the log line of a header that could not be
    decoded. *)
Definition decoded_only (e : event) : bool :=
  match e with
  | EvLog msg _ => negb (String.eqb msg "Received invalid NBD request:")
  | _ => is_serving e
  end.

(** A computation that adds such events only. *)
Definition decodes_all {St A : Type} (m : M St A) : Prop :=
  forall w, exists t,
    trace (snd (m w)) = trace w ++ t /\ forallb decoded_only t = true.

(** ** Proof tactics *)

(* The byte of a value at bit offset [j] is the byte put there; [of_mod]
   and [high] are the lemmas on a byte's value and on its bits above 8. *)
Ltac byte_at of_mod high :=
  apply of_mod; apply Z.bits_inj';
  let n := fresh "n" in
  let Hn := fresh "Hn" in
  intros n Hn;
  change 256 with (2 ^ 8);
  (destruct (Z.lt_ge_cases n 8);
   [ rewrite Z.mod_pow2_bits_low by lia
   | rewrite Z.mod_pow2_bits_high by lia;
     rewrite high by lia; reflexivity ]);
  rewrite ?Z.shiftr_spec by lia;
  rewrite !Z.lor_spec, !Z.shiftl_spec by lia;
  repeat match goal with
    | |- context [Z.testbit (Z_of_byte ?x) ?i] =>
        first [ lazymatch i with n => fail | _ => idtac end;
                replace i with n by lia
              | rewrite (high x i) by lia
              | rewrite (Z.testbit_neg_r (Z_of_byte x) i) by lia ]
    end;
  rewrite ?orb_false_r, ?orb_false_l; reflexivity.

(* A value put together from bytes has no bit at or above [k]: it is
   below [2 ^ k]. *)
Ltac no_bits_from k high :=
  match goal with
  | |- ?v < _ =>
      let E := fresh "E" in
      let n := fresh "n" in
      let Hn := fresh "Hn" in
      assert (E : v mod 2 ^ k = v);
      [ apply Z.bits_inj'; intros n Hn;
        (destruct (Z.lt_ge_cases n k);
         [ rewrite Z.mod_pow2_bits_low by lia; reflexivity
         | rewrite Z.mod_pow2_bits_high by lia ]);
        rewrite !Z.lor_spec, !Z.shiftl_spec by lia;
        rewrite !high by lia; reflexivity
      | rewrite <- E; apply Z.mod_pos_bound; lia ]
  end.

(* Closes a goal [race_inv bd w r] with the caller [k] statements in. *)
Ltac race_at k :=
  exists k; split; [lia|]; split;
  [ cbn; repeat rewrite <- app_assoc; reflexivity
  | first [ left; split; reflexivity | right; split; reflexivity ] ].

(* A backend call: its event is logged, the backend state replaced. *)
Ltac backend_call w :=
  intros w; destruct w as [ci co io sp ofr opr d rc tr];
  unfold driver_ReadAt, driver_WriteAt, driver_Flush, driver_Trim,
    driver_Disconnect, bind, get, emit, set_drv, ret; cbn.

Ltac race_next :=
  first [ race_at 0%nat | race_at 1%nat | race_at 2%nat | race_at 3%nat
        | race_at 4%nat | race_at 5%nat | race_at 6%nat | race_at 7%nat ].

(* Settles every comparison of the goal that linear arithmetic decides. *)
Ltac settle_cmp :=
  repeat match goal with
    | |- context [ (?a <=? ?b)%Z ] =>
        first [ replace (a <=? b)%Z with true by (symmetry; apply Z.leb_le; lia)
              | replace (a <=? b)%Z with false by (symmetry; apply Z.leb_gt; lia) ]
    | |- context [ (?a <? ?b)%Z ] =>
        first [ replace (a <? b)%Z with true by (symmetry; apply Z.ltb_lt; lia)
              | replace (a <? b)%Z with false by (symmetry; apply Z.ltb_ge; lia) ]
    end.


(* Runs a handler on a world given by its fields. *)
Ltac run_handler w :=
  destruct w as [ci co io sp ofr opr d rc tr];
  unfold answered, send_header, binary_Write, fp_Write, log_Println,
    driver_ReadAt, driver_WriteAt, driver_Flush, driver_Trim,
    bind, ret, get, emit, set_drv, set_chan_out; cbn.

Ltac finish_answer :=
  eexists; cbn;
  repeat split; cbn; repeat rewrite <- app_assoc; cbn; reflexivity.

(** * Properties *)

(** ** The wire codec *)

Lemma Z_of_byte_of_Z (z : Z) : Z_of_byte (byte_of_Z z) = z mod 256.
Proof.
  unfold Z_of_byte, byte_of_Z.
  assert (Hr : 0 <= z mod 256 < 256) by (apply Z.mod_pos_bound; lia).
  destruct (Byte.of_N (Z.to_N (z mod 256))) as [b|] eqn:E.
  - apply Byte.to_of_N in E. rewrite E. apply Z2N.id. lia.
  - apply Byte.of_N_None_iff in E. lia.
Qed.

Lemma Z_of_byte_range (b : byte) : 0 <= Z_of_byte b < 256.
Proof.
  unfold Z_of_byte. pose proof (Byte.to_N_bounded b). lia.
Qed.

Lemma byte_of_Z_of_byte (b : byte) : byte_of_Z (Z_of_byte b) = b.
Proof.
  unfold byte_of_Z. pose proof (Z_of_byte_range b) as Hr.
  rewrite Z.mod_small by lia. unfold Z_of_byte.
  rewrite N2Z.id, Byte.of_to_N. reflexivity.
Qed.

(** Bit [n] of the byte of [v] at bit offset [j], put back at offset [j]. *)
Lemma testbit_byte_at (v j n : Z) :
  0 <= n -> 0 <= j ->
  Z.testbit (Z.shiftl ((Z.shiftr v j) mod 256) j) n
  = (j <=? n) && (n <? j + 8) && Z.testbit v n.
Proof.
  intros Hn Hj. rewrite Z.shiftl_spec by lia.
  destruct (Z.leb_spec j n) as [Hle|Hlt]; cbn [andb].
  - change 256 with (2 ^ 8).
    destruct (Z.ltb_spec n (j + 8)) as [Hin|Hout]; cbn [andb].
    + rewrite Z.mod_pow2_bits_low by lia.
      rewrite Z.shiftr_spec by lia. f_equal. lia.
    + apply Z.mod_pow2_bits_high. lia.
  - apply Z.testbit_neg_r. lia.
Qed.

Lemma testbit_byte_0 (v n : Z) :
  0 <= n -> Z.testbit (v mod 256) n = (n <? 8) && Z.testbit v n.
Proof.
  intros Hn. change 256 with (2 ^ 8).
  destruct (Z.ltb_spec n 8); cbn [andb].
  - apply Z.mod_pow2_bits_low. lia.
  - apply Z.mod_pow2_bits_high. lia.
Qed.

Lemma testbit_above (v k n : Z) :
  0 <= v < 2 ^ k -> 0 <= k <= n -> Z.testbit v n = false.
Proof.
  intros Hv Hk. rewrite <- (Z.mod_small v (2 ^ k)) by lia.
  apply Z.mod_pow2_bits_high. lia.
Qed.

Lemma Uint32_PutUint32 (o : ByteOrder) (v : Z) :
  0 <= v < 2 ^ 32 -> Uint32 o (PutUint32 o v) = v.
Proof.
  intros Hv.
  destruct o; unfold Uint32, PutUint32; rewrite !Z_of_byte_of_Z;
    apply Z.bits_inj'; intros n Hn;
    rewrite !Z.lor_spec, !testbit_byte_at, testbit_byte_0 by lia;
    (destruct (Z.testbit v n) eqn:Hb;
     [ | rewrite !andb_false_r; reflexivity ]);
    (assert (Hc : n < 8 \/ 8 <= n < 16 \/ 16 <= n < 24 \/ 24 <= n < 32)
       by (destruct (Z.lt_ge_cases n 32) as [|Hge]; [lia|];
           rewrite (testbit_above v 32 n) in Hb by lia; discriminate));
    decompose [or] Hc; settle_cmp; reflexivity.
Qed.

Lemma Uint64_PutUint64 (o : ByteOrder) (v : Z) :
  0 <= v < 2 ^ 64 -> Uint64 o (PutUint64 o v) = v.
Proof.
  intros Hv.
  destruct o; unfold Uint64, PutUint64; rewrite !Z_of_byte_of_Z;
    apply Z.bits_inj'; intros n Hn;
    rewrite !Z.lor_spec, !testbit_byte_at, testbit_byte_0 by lia;
    (destruct (Z.testbit v n) eqn:Hb;
     [ | rewrite !andb_false_r; reflexivity ]);
    (assert (Hc : n < 8 \/ 8 <= n < 16 \/ 16 <= n < 24 \/ 24 <= n < 32 \/
                  32 <= n < 40 \/ 40 <= n < 48 \/ 48 <= n < 56 \/ 56 <= n < 64)
       by (destruct (Z.lt_ge_cases n 64) as [|Hge]; [lia|];
           rewrite (testbit_above v 64 n) in Hb by lia; discriminate));
    decompose [or] Hc; settle_cmp; reflexivity.
Qed.

Lemma PutUint32_four (o : ByteOrder) (v : Z) :
  exists a b c d, PutUint32 o v = [a; b; c; d].
Proof. destruct o; unfold PutUint32; eauto. Qed.

Lemma PutUint64_eight (o : ByteOrder) (v : Z) :
  exists a b c d e f g h, PutUint64 o v = [a; b; c; d; e; f; g; h].
Proof. destruct o; unfold PutUint64; do 8 eexists; reflexivity. Qed.

Lemma length8 {A} (l : list A) :
  List.length l = 8%nat -> exists a b c d e f g h, l = [a; b; c; d; e; f; g; h].
Proof.
  intros H. do 8 (destruct l as [|? l]; [discriminate|]).
  destruct l; [|discriminate]. do 8 eexists; reflexivity.
Qed.

(** Decoding what the encoder wrote, whatever follows it in the buffer. *)
Lemma binary_Read_Write_request (o : ByteOrder) (q : nbdRequest) (pad : list byte) :
  wf_request q ->
  binary_Read o (binary_Write_request o q ++ pad) = Some q.
Proof.
  intros (Hm & Ht & Hh & Hf & Hl).
  pose proof (Uint32_PutUint32 o _ Hm) as Em.
  pose proof (Uint32_PutUint32 o _ Ht) as Et.
  pose proof (Uint64_PutUint64 o _ Hf) as Ef.
  pose proof (Uint32_PutUint32 o _ Hl) as El.
  destruct q as [m t h f l]; cbn [Magic Type_ Handle From Length] in *.
  unfold binary_Write_request; cbn [Magic Type_ Handle From Length].
  destruct (PutUint32_four o m) as (m0 & m1 & m2 & m3 & Pm).
  destruct (PutUint32_four o t) as (t0 & t1 & t2 & t3 & Pt).
  destruct (PutUint32_four o l) as (l0 & l1 & l2 & l3 & Pl).
  destruct (PutUint64_eight o f) as (f0 & f1 & f2 & f3 & f4 & f5 & f6 & f7 & Pf).
  destruct (length8 h Hh) as (h0 & h1 & h2 & h3 & h4 & h5 & h6 & h7 & Ph).
  rewrite Pm in *. rewrite Pt in *. rewrite Pl in *. rewrite Pf in *. subst h.
  unfold binary_Read, binary_Size_request, slice.
  cbn -[Uint32 Uint64].
  rewrite Em, Et, Ef, El. reflexivity.
Qed.

Lemma Endian_BigEndian (h : host) : Endian h = BigEndian.
Proof. destruct h; reflexivity. Qed.

(** C5: a well-formed request header, encoded in the wire order the process
    uses and decoded again, is the request it was; the bytes that follow the
    28 of the header in the loop's buffer do not matter. *)
Theorem request_roundtrip (h : host) (q : nbdRequest) :
  wf_request q ->
  binary_Read (Endian h) (binary_Write_request (Endian h) q) = Some q /\
  forall pad, binary_Read (Endian h) (binary_Write_request (Endian h) q ++ pad) = Some q.
Proof.
  intros Hq. split.
  - rewrite <- (app_nil_r (binary_Write_request (Endian h) q)).
    apply binary_Read_Write_request; assumption.
  - intros pad. apply binary_Read_Write_request; assumption.
Qed.

(** C6: the probe of [init] tells the two kinds of host apart, and sets the
    same order on both: every header is decoded and encoded big-endian,
    whatever the host. *)
Theorem Endian_fixed (h1 h2 : host) :
  nth 0 (int_image LittleEndianHost 0x1) x00 = x01 /\
  nth 0 (int_image BigEndianHost 0x1) x00 = x00 /\
  init h1 = BigEndian /\
  Endian h1 = Endian h2 /\
  (forall b, binary_Read (Endian h1) b = binary_Read (Endian h2) b) /\
  (forall r, binary_Write (Endian h1) r = binary_Write (Endian h2) r) /\
  (forall b, binary_Read (Endian h1) b = binary_Read BigEndian b) /\
  (forall r, binary_Write (Endian h1) r = binary_Write BigEndian r).
Proof.
  rewrite !Endian_BigEndian.
  repeat split; try reflexivity; destruct h1; reflexivity.
Qed.

(** ** The handlers and the loop *)

Section ServerProperties.

Variable arch : host.
Context {St : Type}.
Variable buseDriver : BuseInterface St.

Lemma bind_val {A B} (m : M St A) (k : A -> M St B) w a w1 :
  m w = (Val a, w1) -> bind m k w = k a w1.
Proof. intros H. unfold bind. rewrite H. reflexivity. Qed.

Lemma bind_halt {A B} (m : M St A) (k : A -> M St B) w h w1 :
  m w = (Halt h, w1) -> bind m k w = (Halt h, w1).
Proof. intros H. unfold bind. rewrite H. reflexivity. Qed.

Lemma opDeviceFlush_answers chunk q rep w :
  answered arch (failed_of (snd (Flush buseDriver (drv w)))) [] rep w
    (opDeviceFlush arch buseDriver chunk q rep w).
Proof.
  unfold opDeviceFlush. run_handler w.
  destruct (Flush buseDriver d) as [s' [e|]]; cbn;
    destruct co as [|[e'|] co]; cbn; finish_answer.
Qed.

Lemma opDeviceTrim_answers chunk q rep w :
  answered arch
    (failed_of (snd (Trim buseDriver (drv w) (uint (From q)) (uint (Length q)))))
    [] rep w (opDeviceTrim arch buseDriver chunk q rep w).
Proof.
  unfold opDeviceTrim. run_handler w.
  destruct (Trim buseDriver d (uint (From q)) (uint (Length q))) as [s' [e|]];
    cbn; destruct co as [|[e'|] co]; cbn; finish_answer.
Qed.

Lemma opDeviceRead_answers chunk q rep w :
  answered arch
    (failed_of (snd (ReadAt buseDriver (drv w) chunk (uint (From q)))))
    [snd (fst (ReadAt buseDriver (drv w) chunk (uint (From q))))] rep w
    (opDeviceRead arch buseDriver chunk q rep w).
Proof.
  unfold opDeviceRead. run_handler w.
  destruct (ReadAt buseDriver d chunk (uint (From q))) as [[s' p'] [e|]];
    cbn; destruct co as [|[e'|] [|[e''|] co]]; cbn; finish_answer.
Qed.

(** The five ways a read on the channel can go. *)
Lemma fp_Read_cases (b : list byte) (w : world St) :
  (List.length b = 0%nat /\ fp_Read b w = (Val (b, 0%nat, None), w)) \/
  (List.length b <> 0%nat /\ chan_in w = [] /\
   fp_Read b w = (Halt Blocked, w)) \/
  (exists e c', List.length b <> 0%nat /\ chan_in w = RdErr e :: c' /\
     fp_Read b w = (Val (b, 0%nat, Some e), after_read c' (EvReadErr e) w)) \/
  (exists bs c', List.length b <> 0%nat /\ chan_in w = RdOk bs :: c' /\
     firstn (List.length b) bs = [] /\
     fp_Read b w = (Val (b, 0%nat, Some EOF), after_read c' (EvReadErr EOF) w)) \/
  (exists bs c' d, List.length b <> 0%nat /\ chan_in w = RdOk bs :: c' /\
     d = firstn (List.length b) bs /\ d <> [] /\
     fp_Read b w = (Val (d ++ skipn (List.length d) b, List.length d, None),
                    after_read c' (EvRead d) w)).
Proof.
  unfold fp_Read.
  destruct (List.length b =? 0)%nat eqn:E.
  - left. apply Nat.eqb_eq in E. auto.
  - right. apply Nat.eqb_neq in E.
    destruct w as [ci co io sp ofr opr d rc tr].
    unfold bind, get, set_chan_in, emit, ret, stop, after_read; cbn.
    destruct ci as [|[bs|e] c'].
    + left. auto.
    + right. right.
      destruct (firstn (List.length b) bs) as [|x d'] eqn:F.
      * left. exists bs, c'. rewrite F. auto.
      * right. exists bs, c', (x :: d'). rewrite F.
        repeat split; auto. discriminate.
    + right. left. exists e, c'. auto.
Qed.

(** A successful read hands back a buffer of the length it was given, with
    at most that many bytes delivered. *)
Lemma fp_Read_ok_length b (w : world St) b' n (w1 : world St) :
  fp_Read b w = (Val (b', n, None), w1) ->
  List.length b' = List.length b /\ (n <= List.length b)%nat /\
  drv w1 = drv w /\ receivers w1 = receivers w /\ ioctl_res w1 = ioctl_res w /\
  exists t, trace w1 = trace w ++ t /\ written t = [].
Proof.
  intros H.
  destruct (fp_Read_cases b w)
    as [(_ & E) | [(_ & _ & E) | [(e & c' & _ & _ & E) |
        [(bs & c' & _ & _ & _ & E) | (bs & c' & d & Hb & Hc & Hd & _ & E)]]]];
    rewrite E in H; inversion H; subst; clear H.
  - repeat (match goal with |- _ /\ _ => split end); auto; try lia.
    exists []. rewrite app_nil_r. auto.
  - assert (Hl : (List.length (firstn (List.length b) bs) <= List.length b)%nat)
      by (rewrite length_firstn; lia).
    repeat (match goal with |- _ /\ _ => split end); auto.
    + rewrite length_app, length_skipn. lia.
    + exists [EvRead (firstn (List.length b) bs)]. auto.
Qed.

Lemma opDeviceWrite_answers chunk q rep (w : world St) c n (w1 : world St) :
  fp_Read chunk w = (Val (c, n, None), w1) ->
  answered arch (failed_of (snd (WriteAt buseDriver (drv w1) c (uint (From q)))))
    [] rep w1 (opDeviceWrite arch buseDriver chunk q rep w).
Proof.
  intros H. unfold opDeviceWrite. rewrite (bind_val _ _ _ _ _ H).
  run_handler w1.
  destruct (WriteAt buseDriver d c (uint (From q))) as [s' [e|]];
    cbn; destruct co as [|[e'|] co]; cbn; finish_answer.
Qed.

Lemma opDeviceWrite_fatal chunk q rep (w : world St) c n e (w1 : world St) :
  fp_Read chunk w = (Val (c, n, Some e), w1) ->
  opDeviceWrite arch buseDriver chunk q rep w
  = (Val (rep, Some (Errorf "Fatal error, cannot read request packet: %s" e)), w1).
Proof.
  intros H. unfold opDeviceWrite. rewrite (bind_val _ _ _ _ _ H). reflexivity.
Qed.

Lemma opDeviceWrite_halts chunk q rep (w : world St) h (w1 : world St) :
  fp_Read chunk w = (Halt h, w1) ->
  opDeviceWrite arch buseDriver chunk q rep w = (Halt h, w1).
Proof.
  intros H. unfold opDeviceWrite. apply bind_halt. assumption.
Qed.

Lemma encode_reply_handle (o : ByteOrder) (r : nbdReply) :
  List.length (rHandle r) = 8%nat ->
  slice (encode_reply o r) 8 16 = rHandle r /\
  List.length (encode_reply o r) = 16%nat.
Proof.
  intros H. unfold encode_reply.
  destruct (PutUint32_four o (rMagic r)) as (m0 & m1 & m2 & m3 & ->).
  destruct (PutUint32_four o (Error r)) as (e0 & e1 & e2 & e3 & ->).
  destruct (length8 _ H) as (h0 & h1 & h2 & h3 & h4 & h5 & h6 & h7 & ->).
  split; reflexivity.
Qed.

Lemma encode_reply_error (o : ByteOrder) (r : nbdReply) :
  0 <= Error r < 2 ^ 32 ->
  Uint32 o (slice (encode_reply o r) 4 8) = Error r.
Proof.
  intros H. pose proof (Uint32_PutUint32 o _ H) as E.
  unfold encode_reply.
  destruct (PutUint32_four o (rMagic r)) as (m0 & m1 & m2 & m3 & ->).
  destruct (PutUint32_four o (Error r)) as (e0 & e1 & e2 & e3 & P).
  rewrite P in *. exact E.
Qed.

Lemma Uint32_nonneg (o : ByteOrder) (b : list byte) : 0 <= Uint32 o b.
Proof.
  unfold Uint32. do 4 (destruct b as [|? b]; [lia|]).
  destruct o;
    repeat (apply Z.lor_nonneg; split);
    try (apply Z.shiftl_nonneg); apply Z_of_byte_range.
Qed.

(** What the decoder hands to the loop. *)
Lemma binary_Read_some (o : ByteOrder) (b : list byte) (q : nbdRequest) :
  binary_Read o b = Some q ->
  Handle q = slice b 8 16 /\ List.length (Handle q) = 8%nat /\ 0 <= Type_ q.
Proof.
  unfold binary_Read, binary_Size_request.
  destruct (List.length b <? 28)%nat eqn:E; [discriminate|].
  apply Nat.ltb_ge in E. cbv zeta.
  remember (firstn 28 b) as bs eqn:Hbs. intros [= <-].
  cbn [Handle Type_]. unfold slice.
  assert (Hs : firstn (16 - 8) (skipn 8 bs) = firstn (16 - 8) (skipn 8 b)).
  { subst bs. change (16 - 8)%nat with 8%nat.
    rewrite !firstn_skipn_comm. rewrite firstn_firstn. reflexivity. }
  rewrite Hs. repeat split.
  - rewrite length_firstn, length_skipn. lia.
  - apply Uint32_nonneg.
Qed.

(** The reply the loop hands to the handler of request [q]. *)
Lemma dispatch_lookup_READ :
  nth_error (dispatch_table arch buseDriver) (Z.to_nat NBD_CMD_READ)
  = Some (opDeviceRead arch buseDriver).
Proof. reflexivity. Qed.

Lemma dispatch_lookup_WRITE :
  nth_error (dispatch_table arch buseDriver) (Z.to_nat NBD_CMD_WRITE)
  = Some (opDeviceWrite arch buseDriver).
Proof. reflexivity. Qed.

Lemma dispatch_lookup_DISC :
  nth_error (dispatch_table arch buseDriver) (Z.to_nat NBD_CMD_DISC)
  = Some (opDeviceDisconnect buseDriver).
Proof. reflexivity. Qed.

Lemma dispatch_lookup_FLUSH :
  nth_error (dispatch_table arch buseDriver) (Z.to_nat NBD_CMD_FLUSH)
  = Some (opDeviceFlush arch buseDriver).
Proof. reflexivity. Qed.

Lemma dispatch_lookup_TRIM :
  nth_error (dispatch_table arch buseDriver) (Z.to_nat NBD_CMD_TRIM)
  = Some (opDeviceTrim arch buseDriver).
Proof. reflexivity. Qed.

Lemma dispatch_lookup_outside (t : Z) :
  4 < t -> nth_error (dispatch_table arch buseDriver) (Z.to_nat t) = None.
Proof.
  intros H. apply nth_error_None. cbn [dispatch_table List.length]. lia.
Qed.

(** The body of the loop once the header is read and decoded. *)
Lemma loop_body_dispatch bd l (w : world St) b n (w1 : world St) q :
  fp_Read (buf l) w = (Val (b, n, None), w1) ->
  binary_Read (Endian arch) b = Some q ->
  loop_body arch bd l w =
  match nth_error (op bd) (Z.to_nat (Type_ q)) with
  | None => (Halt PanicIndex, w1)
  | Some h =>
      match h (make_bytes (Length q)) q
              (set_Error 0 (set_Handle (Handle q) (reply l))) w1 with
      | (Val (_, Some e), w2) => (Val (Return (Some e)), w2)
      | (Val (rep, None), w2) => (Val (Continue (mkLocals b q rep)), w2)
      | (Halt h', w2) => (Halt h', w2)
      end
  end.
Proof.
  intros Hr Hd. unfold loop_body. rewrite (bind_val _ _ _ _ _ Hr).
  cbn beta iota. rewrite Hd. unfold bind at 1. unfold ret at 1.
  destruct (nth_error (op bd) (Z.to_nat (Type_ q))) as [h|]; [|reflexivity].
  unfold bind.
  destruct (h (make_bytes (Length q)) q
              (set_Error 0 (set_Handle (Handle q) (reply l))) w1)
    as [[[rep [e|]]|h'] w2]; reflexivity.
Qed.

Lemma answered_reply (failed : bool) (l : locals) (q : nbdRequest) :
  (if failed
   then set_Error 1 (set_Error 0 (set_Handle (Handle q) (reply l)))
   else set_Error 0 (set_Handle (Handle q) (reply l)))
  = mkReply (rMagic (reply l)) (if failed then 1 else 0) (Handle q).
Proof. destruct failed; reflexivity. Qed.

(** One pass of the loop over a READ, WRITE, FLUSH or TRIM request: either
    it is a WRITE whose payload read did not go through, nothing is written
    and the loop does not go on; or the backend is called, one reply header
    is written (and the chunk after it, for READ) and the loop goes on. *)
Lemma served_pass bd l (w : world St) b n (w1 : world St) q :
  op bd = dispatch_table arch buseDriver ->
  fp_Read (buf l) w = (Val (b, n, None), w1) ->
  binary_Read (Endian arch) b = Some q ->
  Type_ q = NBD_CMD_READ \/ Type_ q = NBD_CMD_WRITE \/
  Type_ q = NBD_CMD_FLUSH \/ Type_ q = NBD_CMD_TRIM ->
  exists t,
    trace (snd (loop_body arch bd l w)) = trace w1 ++ t /\
    ((written t = [] /\ Type_ q = NBD_CMD_WRITE /\
      (forall c n' w1',
         fp_Read (make_bytes (Length q)) w1 <> (Val (c, n', None), w1')) /\
      forall l', fst (loop_body arch bd l w) <> Val (Continue l')) \/
     (let failed := backend_failed buseDriver q (chunk_for q w1) (drv w1) in
      let rep := mkReply (rMagic (reply l)) (if failed then 1 else 0) (Handle q) in
      fst (loop_body arch bd l w) = Val (Continue (mkLocals b q rep)) /\
      written t
      = encode_reply (Endian arch) rep ::
        (if Type_ q =? NBD_CMD_READ
         then [snd (fst (ReadAt buseDriver (drv w1) (make_bytes (Length q))
                                (uint (From q))))]
         else []) /\
      receivers (snd (loop_body arch bd l w)) = receivers w1)).
Proof.
  intros Hop Hr Hd Hty.
  rewrite (loop_body_dispatch bd l w b n w1 q Hr Hd), Hop.
  set (rep0 := set_Error 0 (set_Handle (Handle q) (reply l))).
  set (chunk := make_bytes (Length q)).
  destruct Hty as [T | [T | [T | T]]].
  - (* READ *)
    rewrite T, dispatch_lookup_READ.
    destruct (opDeviceRead_answers chunk q rep0 w1) as (t & Hf & Ht & Hw & _ & Hrc & _).
    destruct (opDeviceRead arch buseDriver chunk q rep0 w1) as [r w2].
    cbn [fst snd] in *. subst r. cbn [fst snd].
    exists t. split; [exact Ht|]. right.
    unfold backend_failed, chunk_for. rewrite T. cbn [Z.eqb NBD_CMD_READ NBD_CMD_WRITE].
    fold chunk. unfold rep0 in *. rewrite answered_reply in *. repeat split; auto.
  - (* WRITE *)
    rewrite T, dispatch_lookup_WRITE.
    destruct (fp_Read chunk w1) as [[[[c n'] [e|]]|h] w1'] eqn:Hp.
    + rewrite (opDeviceWrite_fatal chunk q rep0 w1 c n' e w1' Hp).
      assert (Hno : forall c2 n2 w2, fp_Read chunk w1 <> (Val (c2, n2, None), w2))
        by (intros; rewrite Hp; discriminate).
      destruct (fp_Read_cases chunk w1)
        as [(_ & E) | [(_ & _ & E) | [(e1 & c' & _ & _ & E) |
            [(bs & c' & _ & _ & _ & E) | (bs & c' & d & _ & _ & _ & _ & E)]]]];
        rewrite E in Hp; inversion Hp; subst; clear Hp; cbn [fst snd after_read trace];
        eexists; (split; [reflexivity|]); left; repeat split; auto; discriminate.
    + destruct (fp_Read_ok_length _ _ _ _ _ Hp) as (_ & _ & Hdrv & Hrc1 & _ & t0 & Ht0 & Hw0).
      destruct (opDeviceWrite_answers chunk q rep0 w1 c n' w1' Hp)
        as (t & Hf & Ht & Hw & _ & Hrc & _).
      destruct (opDeviceWrite arch buseDriver chunk q rep0 w1) as [r w2].
      cbn [fst snd] in *. subst r. cbn [fst snd].
      exists (t0 ++ t). split; [rewrite Ht, Ht0, app_assoc; reflexivity|]. right.
      unfold backend_failed, chunk_for. rewrite T.
      cbn [Z.eqb NBD_CMD_READ NBD_CMD_WRITE]. fold chunk. rewrite Hp.
      unfold written in *. rewrite flat_map_app, Hw0, Hw. cbn [app].
      unfold rep0 in *. rewrite answered_reply in *. rewrite <- Hdrv.
      repeat split; auto. congruence.
    + rewrite (opDeviceWrite_halts chunk q rep0 w1 h w1' Hp).
      assert (Hno : forall c2 n2 w2, fp_Read chunk w1 <> (Val (c2, n2, None), w2))
        by (intros; rewrite Hp; discriminate).
      destruct (fp_Read_cases chunk w1)
        as [(_ & E) | [(_ & _ & E) | [(e1 & c' & _ & _ & E) |
            [(bs & c' & _ & _ & _ & E) | (bs & c' & d & _ & _ & _ & _ & E)]]]];
        rewrite E in Hp; inversion Hp; subst; clear Hp; cbn [fst snd].
      exists []. rewrite app_nil_r. split; [reflexivity|].
      left; repeat split; auto; discriminate.
  - (* FLUSH *)
    rewrite T, dispatch_lookup_FLUSH.
    destruct (opDeviceFlush_answers chunk q rep0 w1) as (t & Hf & Ht & Hw & _ & Hrc & _).
    destruct (opDeviceFlush arch buseDriver chunk q rep0 w1) as [r w2].
    cbn [fst snd] in *. subst r. cbn [fst snd].
    exists t. split; [exact Ht|]. right.
    unfold backend_failed, chunk_for. rewrite T.
    cbn [Z.eqb NBD_CMD_READ NBD_CMD_WRITE NBD_CMD_FLUSH Pos.eqb].
    unfold rep0 in *. rewrite answered_reply in *. repeat split; auto.
  - (* TRIM *)
    rewrite T, dispatch_lookup_TRIM.
    destruct (opDeviceTrim_answers chunk q rep0 w1) as (t & Hf & Ht & Hw & _ & Hrc & _).
    destruct (opDeviceTrim arch buseDriver chunk q rep0 w1) as [r w2].
    cbn [fst snd] in *. subst r. cbn [fst snd].
    exists t. split; [exact Ht|]. right.
    unfold backend_failed, chunk_for. rewrite T.
    cbn [Z.eqb NBD_CMD_READ NBD_CMD_WRITE NBD_CMD_FLUSH NBD_CMD_TRIM Pos.eqb].
    unfold rep0 in *. rewrite answered_reply in *. repeat split; auto.
Qed.

Lemma serve_step fuel bd l (w : world St) :
  serve arch (S fuel) bd l w =
  match loop_body arch bd l w with
  | (Val (Continue l'), w') => serve arch fuel bd l' w'
  | (Val (Return e), w') => (Val e, w')
  | (Halt h, w') => (Halt h, w')
  end.
Proof.
  cbn [serve]. unfold bind.
  destruct (loop_body arch bd l w) as [[[l'|e]|h] w']; reflexivity.
Qed.

(** C1: in a pass over a READ, WRITE, FLUSH or TRIM request, the header the
    handler writes (the first write of the pass; one is written unless the
    request is a WRITE whose payload read did not go through) carries in its
    bytes 8..16 the handle of the decoded request, which is bytes 8..16 of
    the request buffer. *)
Theorem reply_echoes_handle bd l (w : world St) b n (w1 : world St) q :
  op bd = dispatch_table arch buseDriver ->
  fp_Read (buf l) w = (Val (b, n, None), w1) ->
  binary_Read (Endian arch) b = Some q ->
  Type_ q = NBD_CMD_READ \/ Type_ q = NBD_CMD_WRITE \/
  Type_ q = NBD_CMD_FLUSH \/ Type_ q = NBD_CMD_TRIM ->
  exists t,
    trace (snd (loop_body arch bd l w)) = trace w1 ++ t /\
    (Type_ q <> NBD_CMD_WRITE \/
     (exists c n' w1',
        fp_Read (make_bytes (Length q)) w1 = (Val (c, n', None), w1')) ->
     written t <> []) /\
    forall hdr rest, written t = hdr :: rest ->
      List.length hdr = 16%nat /\
      slice hdr 8 16 = Handle q /\ slice hdr 8 16 = slice b 8 16.
Proof.
  intros Hop Hr Hd Hty.
  destruct (binary_Read_some _ _ _ Hd) as (Hh & Hlen & _).
  destruct (served_pass bd l w b n w1 q Hop Hr Hd Hty)
    as (t & Ht & [(Hw & T & Hno & _) | (_ & Hw & _)]); exists t.
  - split; [exact Ht|].
    split; [intros [N | (c & n' & w1' & E)];
            [congruence | destruct (Hno _ _ _ E)]|].
    intros hdr rest E. rewrite Hw in E. discriminate.
  - split; [exact Ht|]. split; [intros _; rewrite Hw; discriminate|].
    intros hdr rest E. rewrite Hw in E. injection E as <- _.
    match goal with
    | |- context [encode_reply ?o ?r] =>
        destruct (encode_reply_handle o r Hlen) as (Hs & Hl)
    end.
    cbn [rHandle] in Hs. rewrite Hs. rewrite <- Hh. auto.
Qed.


(** C3: in a pass over a READ, WRITE, FLUSH or TRIM request, whatever error
    the reply kept from the pass before, the error field of the header
    written is non-zero exactly when the backend operation of this request
    failed, and the loop goes on to its next pass. *)
Theorem reply_error_iff_backend_failed bd l (w : world St) b n (w1 : world St) q :
  op bd = dispatch_table arch buseDriver ->
  fp_Read (buf l) w = (Val (b, n, None), w1) ->
  binary_Read (Endian arch) b = Some q ->
  Type_ q = NBD_CMD_READ \/ Type_ q = NBD_CMD_WRITE \/
  Type_ q = NBD_CMD_FLUSH \/ Type_ q = NBD_CMD_TRIM ->
  exists t,
    trace (snd (loop_body arch bd l w)) = trace w1 ++ t /\
    (Type_ q <> NBD_CMD_WRITE \/
     (exists c n' w1',
        fp_Read (make_bytes (Length q)) w1 = (Val (c, n', None), w1')) ->
     written t <> []) /\
    forall hdr rest, written t = hdr :: rest ->
      (Uint32 (Endian arch) (slice hdr 4 8) <> 0 <->
       backend_failed buseDriver q (chunk_for q w1) (drv w1) = true) /\
      exists l',
        fst (loop_body arch bd l w) = Val (Continue l') /\
        Error (reply l') = Uint32 (Endian arch) (slice hdr 4 8) /\
        forall fuel,
          serve arch (S fuel) bd l w
          = serve arch fuel bd l' (snd (loop_body arch bd l w)).
Proof.
  intros Hop Hr Hd Hty.
  destruct (served_pass bd l w b n w1 q Hop Hr Hd Hty)
    as (t & Ht & [(Hw & T & Hno & _) | (Hf & Hw & _)]); exists t.
  - split; [exact Ht|].
    split; [intros [N | (c & n' & w1' & E)];
            [congruence | destruct (Hno _ _ _ E)]|].
    intros hdr rest E. rewrite Hw in E. discriminate.
  - split; [exact Ht|]. split; [intros _; rewrite Hw; discriminate|].
    intros hdr rest E. rewrite Hw in E. injection E as <- _.
    rewrite encode_reply_error
      by (cbn [Error]; destruct (backend_failed _ _ _ _); lia).
    cbn [Error]. split.
    + destruct (backend_failed buseDriver q (chunk_for q w1) (drv w1));
        split; intros H; try reflexivity; try discriminate; lia.
    + eexists. split; [exact Hf|]. split; [reflexivity|].
      intros fuel. rewrite serve_step.
      destruct (loop_body arch bd l w) as [r w2]. cbn [fst snd] in *.
      subst r. reflexivity.
Qed.

(** C7: a decoded request whose type is none of the five operation codes
    has a type above 4, its lookup falls outside the five-entry table, and
    the pass ends in the index panic: it neither goes on to the next pass
    nor returns.  Every type above 4 falls outside the table, every type
    from 0 to 4 inside. *)
Theorem unknown_type_is_fatal bd l (w : world St) b n (w1 : world St) q :
  op bd = dispatch_table arch buseDriver ->
  fp_Read (buf l) w = (Val (b, n, None), w1) ->
  binary_Read (Endian arch) b = Some q ->
  Type_ q <> NBD_CMD_READ -> Type_ q <> NBD_CMD_WRITE ->
  Type_ q <> NBD_CMD_DISC -> Type_ q <> NBD_CMD_FLUSH ->
  Type_ q <> NBD_CMD_TRIM ->
  4 < Type_ q /\
  nth_error (op bd) (Z.to_nat (Type_ q)) = None /\
  loop_body arch bd l w = (Halt PanicIndex, w1) /\
  (forall fuel, serve arch (S fuel) bd l w = (Halt PanicIndex, w1)) /\
  (forall t, 4 < t ->
     nth_error (dispatch_table arch buseDriver) (Z.to_nat t) = None) /\
  (forall t, 0 <= t <= 4 ->
     nth_error (dispatch_table arch buseDriver) (Z.to_nat t) <> None).
Proof.
  intros Hop Hr Hd N0 N1 N2 N3 N4.
  destruct (binary_Read_some _ _ _ Hd) as (_ & _ & Hpos).
  unfold NBD_CMD_READ, NBD_CMD_WRITE, NBD_CMD_DISC, NBD_CMD_FLUSH,
    NBD_CMD_TRIM in *.
  assert (Hgt : 4 < Type_ q) by lia.
  assert (Hout : nth_error (op bd) (Z.to_nat (Type_ q)) = None)
    by (rewrite Hop; apply dispatch_lookup_outside; exact Hgt).
  assert (Hbody : loop_body arch bd l w = (Halt PanicIndex, w1))
    by (rewrite (loop_body_dispatch bd l w b n w1 q Hr Hd), Hout; reflexivity).
  repeat split; auto.
  - intros fuel. rewrite serve_step, Hbody. reflexivity.
  - intros t Ht. apply dispatch_lookup_outside. exact Ht.
  - intros t Ht. apply nth_error_Some. cbn [dispatch_table List.length]. lia.
Qed.

(** ** Teardown *)

Lemma Disconnect_runs bd (w : world St) :
  receivers w <> 0%nat ->
  Disconnect bd w = (Val tt, after_Disconnect (Disconnect_events bd w) w).
Proof.
  intros H. destruct w as [ci co io sp ofr opr d rc tr].
  cbn [receivers] in H. destruct rc as [|rc]; [contradiction|].
  unfold Disconnect, Disconnect_steps, run_steps, chan_send, Syscall_ioctl,
    sys_Close, log_Println, bind, get, set_receivers, emit, ret,
    after_Disconnect, Disconnect_events.
  cbn. repeat rewrite <- app_assoc. reflexivity.
Qed.

Lemma Disconnect_blocks bd (w : world St) :
  receivers w = 0%nat -> Disconnect bd w = (Halt Blocked, w).
Proof.
  intros H. destruct w as [ci co io sp ofr opr d rc tr].
  cbn [receivers] in H. subst rc. reflexivity.
Qed.

Lemma deferred_val {A} (d : M St unit) (body : M St A) (w : world St) a w1 w2 :
  body w = (Val a, w1) -> d w1 = (Val tt, w2) ->
  deferred d body w = (Val a, w2).
Proof. intros Hb Hd. unfold deferred. rewrite Hb, Hd. reflexivity. Qed.

Lemma opDeviceWrite_calls_backend chunk q rep (w : world St) c n (w1 : world St) :
  fp_Read chunk w = (Val (c, n, None), w1) ->
  exists t,
    trace (snd (opDeviceWrite arch buseDriver chunk q rep w))
    = trace w1 ++ EvWriteAt c (uint (From q)) :: t.
Proof.
  intros H. unfold opDeviceWrite. rewrite (bind_val _ _ _ _ _ H).
  run_handler w1.
  destruct (WriteAt buseDriver d c (uint (From q))) as [s' [e|]];
    cbn; destruct co as [|[e'|] co]; cbn;
    eexists; repeat rewrite <- app_assoc; cbn; reflexivity.
Qed.

Lemma loop_body_snd bd l (w : world St) b n (w1 : world St) q h :
  fp_Read (buf l) w = (Val (b, n, None), w1) ->
  binary_Read (Endian arch) b = Some q ->
  nth_error (op bd) (Z.to_nat (Type_ q)) = Some h ->
  snd (loop_body arch bd l w)
  = snd (h (make_bytes (Length q)) q
           (set_Error 0 (set_Handle (Handle q) (reply l))) w1).
Proof.
  intros Hr Hd Hh. rewrite (loop_body_dispatch bd l w b n w1 q Hr Hd), Hh.
  destruct (h (make_bytes (Length q)) q
              (set_Error 0 (set_Handle (Handle q) (reply l))) w1)
    as [[[rep [e|]]|h'] w2]; reflexivity.
Qed.


(** ** Control calls *)

(** C8, what the code does: when the kernel rejects NBD_SET_FLAGS, the
    [ioctl] helper ends the process through [log.Fatalf].  [Connect] does
    not return, the attach NBD_DO_IT is never issued, and no request is
    read. *)
Theorem set_flags_failure_exits bd (w : world St) :
  ioctl_res w NBD_SET_SOCK (snd (socketPair bd)) = 0 ->
  ioctl_res w NBD_SET_FLAGS NBD_FLAG_SEND_TRIM <> 0 ->
  exists w',
    startNBDClient bd w = (Halt ExitFatal, w') /\
    Connect arch bd w = (Halt ExitFatal, w') /\
    chan_in w' = chan_in w /\
    trace w' = trace w ++
      [EvIoctl (deviceFp bd) NBD_SET_SOCK (snd (socketPair bd)) 0;
       EvIoctl (deviceFp bd) NBD_SET_FLAGS NBD_FLAG_SEND_TRIM
               (ioctl_res w NBD_SET_FLAGS NBD_FLAG_SEND_TRIM);
       EvFatalf "ioctl(%d, %d, %d) failed: %s"
                (ioctl_res w NBD_SET_FLAGS NBD_FLAG_SEND_TRIM)].
Proof.
  intros H1 H2. destruct w as [ci co io sp ofr opr d rc tr].
  cbn [ioctl_res] in H1, H2. apply Z.eqb_neq in H2.
  assert (Hs : startNBDClient bd
                 (mkWorld ci co io sp ofr opr d rc tr)
               = (Halt ExitFatal,
                  mkWorld ci co io sp ofr opr d rc
                    (tr ++
                     [EvIoctl (deviceFp bd) NBD_SET_SOCK (snd (socketPair bd)) 0;
                      EvIoctl (deviceFp bd) NBD_SET_FLAGS NBD_FLAG_SEND_TRIM
                              (io NBD_SET_FLAGS NBD_FLAG_SEND_TRIM);
                      EvFatalf "ioctl(%d, %d, %d) failed: %s"
                               (io NBD_SET_FLAGS NBD_FLAG_SEND_TRIM)]))).
  { unfold startNBDClient, ioctl, Syscall_ioctl, log_Fatalf, bind, get, emit,
      ret, stop.
    cbn [ioctl_res chan_in chan_out socketpair_res openfile_res open_res drv
         receivers trace].
    rewrite H1.
    cbn [Z.eqb negb ioctl_res chan_in chan_out socketpair_res openfile_res
         open_res drv receivers trace].
    rewrite H2.
    cbn [negb ioctl_res chan_in chan_out socketpair_res openfile_res
         open_res drv receivers trace].
    repeat rewrite <- app_assoc. reflexivity. }
  eexists. split; [exact Hs|]. split.
  - unfold Connect. apply bind_halt. exact Hs.
  - split; reflexivity.
Qed.

(** C9, as the code has it: when the device node cannot be opened,
    [CreateDevice] returns a nil device and the error; when the kernel
    rejects NBD_SET_SIZE, the [ioctl] helper ends the process through
    [log.Fatalf] and nothing is returned to the caller.  In neither case
    is a device returned. *)
Theorem CreateDevice_failure device size (w : world St) sp :
  socketpair_res w = inl sp ->
  (forall e, openfile_res w = inr e ->
     exists w',
       CreateDevice arch buseDriver device size w
       = (Val (None,
               Some (Errorf "Cannot open %s. Make sure the nbd kernel module is loaded: %s" e)),
          w')) /\
  (forall fp, openfile_res w = inl fp ->
     ioctl_res w NBD_SET_SIZE size <> 0 ->
     exists w',
       CreateDevice arch buseDriver device size w = (Halt ExitFatal, w') /\
       trace w' = trace w ++
         [EvSocketpair None; EvOpenFile device None;
          EvIoctl fp NBD_SET_SIZE size (ioctl_res w NBD_SET_SIZE size);
          EvFatalf "ioctl(%d, %d, %d) failed: %s"
                   (ioctl_res w NBD_SET_SIZE size)]) /\
  ((exists e, openfile_res w = inr e) \/
   (exists fp, openfile_res w = inl fp /\ ioctl_res w NBD_SET_SIZE size <> 0) ->
   forall bd oe,
     fst (CreateDevice arch buseDriver device size w) <> Val (Some bd, oe)).
Proof.
  intros Hsp. destruct w as [ci co io spr ofr opr d rc tr].
  cbn [socketpair_res openfile_res ioctl_res trace] in *. subst spr.
  assert (Hopen : forall e, ofr = inr e ->
            exists w',
              CreateDevice arch buseDriver device size
                (mkWorld ci co io (inl sp) ofr opr d rc tr)
              = (Val (None,
                      Some (Errorf "Cannot open %s. Make sure the nbd kernel module is loaded: %s" e)),
                 w')).
  { intros e ->. eexists. reflexivity. }
  assert (Hsize : forall fp, ofr = inl fp -> io NBD_SET_SIZE size <> 0 ->
            exists w',
              CreateDevice arch buseDriver device size
                (mkWorld ci co io (inl sp) ofr opr d rc tr)
              = (Halt ExitFatal, w') /\
              trace w' = tr ++
                [EvSocketpair None; EvOpenFile device None;
                 EvIoctl fp NBD_SET_SIZE size (io NBD_SET_SIZE size);
                 EvFatalf "ioctl(%d, %d, %d) failed: %s"
                          (io NBD_SET_SIZE size)]).
  { intros fp -> Hne. apply Z.eqb_neq in Hne.
    unfold CreateDevice, ioctl, Syscall_ioctl, log_Fatalf, bind, get, emit,
      ret, stop.
    cbn [ioctl_res chan_in chan_out socketpair_res openfile_res open_res drv
         receivers trace].
    rewrite Hne. cbn [negb]. eexists. split; [reflexivity|].
    cbn [trace]. repeat rewrite <- app_assoc. reflexivity. }
  split; [exact Hopen|]. split; [exact Hsize|].
  intros [(e & He) | (fp & Hfp & Hne)] bd oe.
  - destruct (Hopen e He) as (w' & ->). cbn [fst]. discriminate.
  - destruct (Hsize fp Hfp Hne) as (w' & -> & _). cbn [fst]. discriminate.
Qed.

(** ** Two callers of Disconnect *)

Lemma race_inv_init bd (w : world St) : race_inv bd w (race_init bd w).
Proof.
  exists 0%nat. split; [lia|]. split.
  - destruct w. unfold race_init, race_world. cbn. rewrite app_nil_r. reflexivity.
  - left. split; reflexivity.
Qed.

Lemma race_inv_step bd (w : world St) (p : path) (r : race) :
  receivers w = 1%nat ->
  race_inv bd w r ->
  race_inv bd w (match race_step p r with Some r' => r' | None => r end).
Proof.
  intros Hrc (k & Hk & Hs & Hp).
  destruct r as [sh lr er]. cbn [shared loop_rest ext_rest] in *. subst sh.
  destruct w as [ci co io sp ofr opr d rc tr]. cbn [receivers] in Hrc. subst rc.
  do 8 (destruct k as [|k];
        [ destruct Hp as [(-> & ->) | (-> & ->)]; destruct p;
          unfold race_step, race_world, Disconnect_steps, Disconnect_events,
            chan_send, Syscall_ioctl, sys_Close, log_Println, bind, get,
            set_receivers, emit, ret, stop;
          cbn; race_next | ]).
  lia.
Qed.

Lemma race_inv_run bd (w : world St) (sched : list path) (r : race) :
  receivers w = 1%nat ->
  race_inv bd w r -> race_inv bd w (race_run sched r).
Proof.
  intros Hrc. revert r.
  induction sched as [|p sched IH]; intros r Hr; cbn [race_run]; [exact Hr|].
  pose proof (race_inv_step bd w p r Hrc Hr) as Hstep.
  destruct (race_step p r) as [r'|]; apply IH; exact Hstep.
Qed.

(** While the caller that got through is not at its end, it can move. *)
Lemma race_inv_over bd (w : world St) (r : race) k :
  receivers w = 1%nat -> (k <= 7)%nat ->
  shared r = race_world bd k w ->
  (loop_rest r = skipn k (Disconnect_steps bd) /\
   ext_rest r = Disconnect_steps bd) \/
  (ext_rest r = skipn k (Disconnect_steps bd) /\
   loop_rest r = Disconnect_steps bd) ->
  race_over r -> k = 7%nat.
Proof.
  intros Hrc Hk Hs Hp (Hl & He).
  destruct r as [sh lr er]. cbn [shared loop_rest ext_rest] in *. subst sh.
  destruct w as [ci co io sp ofr opr d rc tr]. cbn [receivers] in Hrc. subst rc.
  do 7 (destruct k as [|k];
        [ exfalso; destruct Hp as [(-> & ->) | (-> & ->)];
          unfold race_step, race_world, Disconnect_steps, Disconnect_events,
            chan_send, Syscall_ioctl, sys_Close, log_Println, bind, get,
            set_receivers, emit, ret, stop in Hl, He;
          cbn in Hl, He; discriminate | ]).
  lia.
Qed.

(** C10, as the code has it: with the attach monitor parked as the one
    receiver and two callers in [Disconnect], under every schedule one
    caller alone gets through the send and runs the statements of the
    teardown, each at most once and in order; the other caller never gets
    past its send.  When neither can move any more, the first has run the
    whole teardown and the second is still parked on the send, with no
    receiver left. *)
Theorem race_one_teardown bd (w : world St) (sched : list path) :
  receivers w = 1%nat ->
  let r := race_run sched (race_init bd w) in
  exists k, (k <= 7)%nat /\
    trace (shared r) = trace w ++ firstn k (Disconnect_events bd w) /\
    receivers (shared r) = match k with O => 1%nat | S _ => 0%nat end /\
    ((loop_rest r = skipn k (Disconnect_steps bd) /\
      ext_rest r = Disconnect_steps bd) \/
     (ext_rest r = skipn k (Disconnect_steps bd) /\
      loop_rest r = Disconnect_steps bd)) /\
    (race_over r ->
     k = 7%nat /\
     trace (shared r) = trace w ++ Disconnect_events bd w /\
     ((loop_rest r = [] /\ ext_rest r = Disconnect_steps bd) \/
      (ext_rest r = [] /\ loop_rest r = Disconnect_steps bd))).
Proof.
  intros Hrc r.
  destruct (race_inv_run bd w sched _ Hrc (race_inv_init bd w))
    as (k & Hk & Hs & Hp).
  fold r in Hs, Hp. exists k.
  split; [exact Hk|]. split; [rewrite Hs; reflexivity|].
  split; [rewrite Hs; cbn [race_world receivers]; rewrite Hrc;
          destruct k; reflexivity|].
  split; [exact Hp|].
  intros Hover.
  assert (k = 7%nat) by (apply (race_inv_over bd w r k Hrc Hk Hs Hp Hover)).
  subst k. split; [reflexivity|]. split; [rewrite Hs; reflexivity|].
  exact Hp.
Qed.

(** ** The loop always ends within its bound *)

Lemma binary_Read_total (o : ByteOrder) (b : list byte) :
  (28 <= List.length b)%nat -> exists q, binary_Read o b = Some q.
Proof.
  intros H. unfold binary_Read, binary_Size_request.
  apply Nat.ltb_ge in H. rewrite H. eexists. reflexivity.
Qed.

Lemma answered_frame failed payload rep (w : world St) out :
  answered arch failed payload rep w out ->
  (List.length (chan_in (snd out)) <= List.length (chan_in w))%nat /\
  fst out <> Halt OutOfFuel.
Proof.
  intros (t & Hf & _ & _ & Hc & _). rewrite Hc, Hf. split; [lia|discriminate].
Qed.

Lemma handler_frame h chunk q rep (w : world St) :
  In h (dispatch_table arch buseDriver) ->
  (List.length (chan_in (snd (h chunk q rep w))) <= List.length (chan_in w))%nat /\
  fst (h chunk q rep w) <> Halt OutOfFuel.
Proof.
  intros [<- | [<- | [<- | [<- | [<- | []]]]]].
  - eapply answered_frame. apply opDeviceRead_answers.
  - destruct (fp_Read_cases chunk w)
      as [(_ & E) | [(_ & Hc & E) | [(e1 & c' & _ & Hc & E) |
          [(bs & c' & _ & Hc & _ & E) | (bs & c' & d & _ & Hc & _ & _ & E)]]]].
    + destruct (answered_frame _ _ _ _ _ (opDeviceWrite_answers chunk q rep w _ _ _ E)).
      auto.
    + rewrite (opDeviceWrite_halts chunk q rep w _ _ E). cbn [fst snd].
      split; [lia|discriminate].
    + rewrite (opDeviceWrite_fatal chunk q rep w _ _ _ _ E).
      cbn [fst snd after_read chan_in]. rewrite Hc. cbn [List.length].
      split; [lia|discriminate].
    + rewrite (opDeviceWrite_fatal chunk q rep w _ _ _ _ E).
      cbn [fst snd after_read chan_in]. rewrite Hc. cbn [List.length].
      split; [lia|discriminate].
    + destruct (answered_frame _ _ _ _ _ (opDeviceWrite_answers chunk q rep w _ _ _ E))
        as (Hle & Hne).
      cbn [after_read chan_in] in Hle. rewrite Hc. cbn [List.length].
      split; [lia|exact Hne].
  - destruct w. cbn. split; [lia|discriminate].
  - eapply answered_frame. apply opDeviceFlush_answers.
  - eapply answered_frame. apply opDeviceTrim_answers.
Qed.

(** A pass that goes on keeps the buffer's length and has taken at least
    one delivery off the channel. *)
Lemma loop_body_progress bd l (w : world St) :
  op bd = dispatch_table arch buseDriver ->
  (28 <= List.length (buf l))%nat ->
  match loop_body arch bd l w with
  | (Val (Continue l'), w') =>
      List.length (buf l') = List.length (buf l) /\
      (List.length (chan_in w') < List.length (chan_in w))%nat
  | (Val (Return _), _) => True
  | (Halt h, _) => h <> OutOfFuel
  end.
Proof.
  intros Hop Hlen.
  destruct (fp_Read_cases (buf l) w)
    as [(H0 & _) | [(_ & _ & E) | [(e1 & c' & _ & _ & E) |
        [(bs & c' & _ & _ & _ & E) | (bs & c' & d & _ & Hc & Hd & _ & E)]]]].
  - lia.
  - unfold loop_body. rewrite (bind_halt _ _ _ _ _ E). discriminate.
  - unfold loop_body. rewrite (bind_val _ _ _ _ _ E). cbn. exact I.
  - unfold loop_body. rewrite (bind_val _ _ _ _ _ E). cbn. exact I.
  - destruct (fp_Read_ok_length _ _ _ _ _ E) as (Hb & _).
    destruct (binary_Read_total (Endian arch) (d ++ skipn (List.length d) (buf l)))
      as (q & Hq); [lia|].
    rewrite (loop_body_dispatch bd l w _ _ _ q E Hq), Hop.
    destruct (nth_error (dispatch_table arch buseDriver) (Z.to_nat (Type_ q)))
      as [h|] eqn:Hh; [|discriminate].
    apply nth_error_In in Hh.
    destruct (handler_frame h (make_bytes (Length q)) q
                (set_Error 0 (set_Handle (Handle q) (reply l)))
                (after_read c' (EvRead d) w) Hh) as (Hle & Hne).
    destruct (h (make_bytes (Length q)) q
                (set_Error 0 (set_Handle (Handle q) (reply l)))
                (after_read c' (EvRead d) w)) as [[[rep [e|]]|hh] w2];
      cbn [fst snd after_read chan_in buf] in *.
    + exact I.
    + rewrite Hc. cbn [List.length]. split; [exact Hb|lia].
    + congruence.
Qed.

Lemma serve_within_fuel fuel bd l (w : world St) :
  op bd = dispatch_table arch buseDriver ->
  (28 <= List.length (buf l))%nat ->
  (List.length (chan_in w) < fuel)%nat ->
  fst (serve arch fuel bd l w) <> Halt OutOfFuel.
Proof.
  intros Hop. revert l w.
  induction fuel as [|fuel IH]; intros l w Hlen Hfuel; [lia|].
  rewrite serve_step.
  pose proof (loop_body_progress bd l w Hop Hlen) as Hp.
  destruct (loop_body arch bd l w) as [[[l'|e]|h] w'].
  - destruct Hp as (Hb & Hc). apply IH; lia.
  - discriminate.
  - cbn [fst]. congruence.
Qed.

Lemma within_fuel_bind {A B} (m : M St A) (k : A -> M St B) :
  within_fuel m -> (forall a, within_fuel (k a)) -> within_fuel (bind m k).
Proof.
  intros Hm Hk w. unfold bind. specialize (Hm w).
  destruct (m w) as [[a|h] w']; [apply Hk|].
  cbn [fst] in *. intros [= ->]. apply Hm. reflexivity.
Qed.

Lemma within_fuel_ioctl fd o a : within_fuel (ioctl (St := St) fd o a).
Proof.
  intros w. destruct w. unfold ioctl, Syscall_ioctl, log_Fatalf, bind, get,
    emit, ret, stop. cbn.
  destruct (negb (_ =? 0)); cbn; discriminate.
Qed.

Lemma within_fuel_Disconnect (bd : BuseDevice (St := St)) :
  within_fuel (Disconnect bd).
Proof.
  intros w. destruct (Nat.eq_dec (receivers w) 0) as [H|H].
  - rewrite (Disconnect_blocks bd w H). discriminate.
  - rewrite (Disconnect_runs bd w H). discriminate.
Qed.

(** [Connect] never ends on the iteration bound of the model: whatever the
    channel delivers, it returns, panics, exits or parks for ever on a read
    or on the send. *)
Lemma Connect_within_fuel bd :
  op bd = dispatch_table arch buseDriver -> within_fuel (Connect arch bd).
Proof.
  intros Hop. unfold Connect.
  apply within_fuel_bind.
  - unfold startNBDClient.
    apply within_fuel_bind; [apply within_fuel_ioctl|intros _].
    apply within_fuel_bind; [apply within_fuel_ioctl|intros _].
    intros w. destruct w. cbn. discriminate.
  - intros _ w. unfold deferred.
    assert (Hb : fst (Connect_body arch bd w) <> Halt OutOfFuel).
    { unfold Connect_body, os_Open, serve_all, sys_Close.
      destruct w as [ci co io sp ofr [tmp|e] d rc tr];
        unfold bind, get, emit, ret; cbn [open_res fst snd chan_in];
        [|discriminate].
      apply serve_within_fuel; [exact Hop| |cbn [chan_in]; lia].
      cbn [buf]. unfold make_bytes, Sizeof_request. rewrite repeat_length.
      change (Z.to_nat 32) with 32%nat. lia. }
    destruct (Connect_body arch bd w) as [[a|h] w'].
    + pose proof (within_fuel_Disconnect bd w') as Hd.
      destruct (Disconnect bd w') as [[u|h] w'']; [discriminate|].
      cbn [fst] in *. intros [= ->]. apply Hd. reflexivity.
    + pose proof (within_fuel_Disconnect bd w') as Hd.
      destruct h; cbn [fst] in *; try discriminate; try congruence.
      destruct (Disconnect bd w') as [[u|h] w'']; [discriminate|].
      cbn [fst] in *. intros [= ->]. apply Hd. reflexivity.
Qed.

End ServerProperties.

(** ** Serving never tears down *)

Section ServingEvents.

Variable arch : host.
Context {St : Type}.
Variable buseDriver : BuseInterface St.




















End ServingEvents.

(** ** The properties on the sample worlds *)

Lemma request_roundtrip_witness :
  binary_Read (Endian LittleEndianHost)
    (binary_Write_request (Endian LittleEndianHost)
       (sample_request NBD_CMD_WRITE 4096 512))
  = Some (sample_request NBD_CMD_WRITE 4096 512).
Proof.
  refine (proj1 (request_roundtrip LittleEndianHost
                   (sample_request NBD_CMD_WRITE 4096 512) _)).
  unfold wf_request.
  repeat split; vm_compute; first [reflexivity | discriminate].
Defined.

Lemma reply_echoes_handle_witness :
  exists t,
    trace (snd (loop_body LittleEndianHost (sample_device false)
                  initial_locals flush_world))
    = trace (after_header flush_world) ++ t /\
    (Type_ (sample_request NBD_CMD_FLUSH 0 0) <> NBD_CMD_WRITE \/
     (exists c n' w1',
        fp_Read (make_bytes (Length (sample_request NBD_CMD_FLUSH 0 0)))
                (after_header flush_world) = (Val (c, n', None), w1')) ->
     written t <> []) /\
    forall hdr rest, written t = hdr :: rest ->
      List.length hdr = 16%nat /\
      slice hdr 8 16 = Handle (sample_request NBD_CMD_FLUSH 0 0) /\
      slice hdr 8 16 = slice (header_buf flush_world) 8 16.
Proof.
  apply (reply_echoes_handle LittleEndianHost (counting_driver false)
           (sample_device false) initial_locals flush_world
           (header_buf flush_world) 28%nat (after_header flush_world)
           (sample_request NBD_CMD_FLUSH 0 0)).
  - reflexivity.
  - vm_compute. reflexivity.
  - vm_compute. reflexivity.
  - right. right. left. reflexivity.
Defined.

(** A whole run of [Connect] over a backend whose every operation fails: the
    FLUSH and the READ are each answered with error 1 and the handle of the
    request, the READ with its two bytes after the header, and [Connect]
    returns nil once the channel is closed, after one teardown. *)
Example Connect_flush_then_read :
  let out := Connect LittleEndianHost (sample_device true) flush_read_world in
  let header :=
    encode_reply BigEndian
      (mkReply NBD_REPLY_MAGIC 1 [x01; x02; x03; x04; x05; x06; x07; x08]) in
  fst out = Val None /\
  written (trace (snd out)) = [header; header; [xff; xff]] /\
  skipn 17 (trace (snd out))
  = Disconnect_events (sample_device true) flush_read_world /\
  drv (snd out) = 2%nat /\ receivers (snd out) = 0%nat.
Proof. vm_compute. repeat split; reflexivity. Qed.


Lemma reply_error_iff_backend_failed_witness :
  exists t,
    trace (snd (loop_body LittleEndianHost (sample_device true)
                  initial_locals flush_world))
    = trace (after_header flush_world) ++ t /\
    (Type_ (sample_request NBD_CMD_FLUSH 0 0) <> NBD_CMD_WRITE \/
     (exists c n' w1',
        fp_Read (make_bytes (Length (sample_request NBD_CMD_FLUSH 0 0)))
                (after_header flush_world) = (Val (c, n', None), w1')) ->
     written t <> []) /\
    forall hdr rest, written t = hdr :: rest ->
      (Uint32 (Endian LittleEndianHost) (slice hdr 4 8) <> 0 <->
       backend_failed (counting_driver true) (sample_request NBD_CMD_FLUSH 0 0)
         (chunk_for (sample_request NBD_CMD_FLUSH 0 0) (after_header flush_world))
         (drv (after_header flush_world)) = true) /\
      exists l',
        fst (loop_body LittleEndianHost (sample_device true)
               initial_locals flush_world) = Val (Continue l') /\
        Error (reply l') = Uint32 (Endian LittleEndianHost) (slice hdr 4 8) /\
        forall fuel,
          serve LittleEndianHost (S fuel) (sample_device true)
                initial_locals flush_world
          = serve LittleEndianHost fuel (sample_device true) l'
              (snd (loop_body LittleEndianHost (sample_device true)
                      initial_locals flush_world)).
Proof.
  apply (reply_error_iff_backend_failed LittleEndianHost (counting_driver true)
           (sample_device true) initial_locals flush_world
           (header_buf flush_world) 28%nat (after_header flush_world)
           (sample_request NBD_CMD_FLUSH 0 0)).
  - reflexivity.
  - vm_compute. reflexivity.
  - vm_compute. reflexivity.
  - right. right. left. reflexivity.
Defined.

Lemma unknown_type_is_fatal_witness :
  4 < Type_ (sample_request 7 0 0) /\
  nth_error (op (sample_device false)) (Z.to_nat (Type_ (sample_request 7 0 0)))
  = None /\
  loop_body LittleEndianHost (sample_device false) initial_locals unknown_world
  = (Halt PanicIndex, after_header unknown_world) /\
  (forall fuel,
     serve LittleEndianHost (S fuel) (sample_device false) initial_locals
           unknown_world
     = (Halt PanicIndex, after_header unknown_world)) /\
  (forall t, 4 < t ->
     nth_error (dispatch_table LittleEndianHost (counting_driver false))
               (Z.to_nat t) = None) /\
  (forall t, 0 <= t <= 4 ->
     nth_error (dispatch_table LittleEndianHost (counting_driver false))
               (Z.to_nat t) <> None).
Proof.
  apply (unknown_type_is_fatal LittleEndianHost (counting_driver false)
           (sample_device false) initial_locals unknown_world
           (header_buf unknown_world) 28%nat (after_header unknown_world)
           (sample_request 7 0 0)).
  - reflexivity.
  - vm_compute. reflexivity.
  - vm_compute. reflexivity.
  - vm_compute. discriminate.
  - vm_compute. discriminate.
  - vm_compute. discriminate.
  - vm_compute. discriminate.
  - vm_compute. discriminate.
Defined.



Lemma set_flags_failure_exits_witness :
  exists w',
    startNBDClient (sample_device false)
      (sample_world [] (io_rejects NBD_SET_FLAGS) 0) = (Halt ExitFatal, w') /\
    Connect LittleEndianHost (sample_device false)
      (sample_world [] (io_rejects NBD_SET_FLAGS) 0) = (Halt ExitFatal, w') /\
    chan_in w' = [] /\
    trace w' =
      [EvIoctl 5 NBD_SET_SOCK 4 0;
       EvIoctl 5 NBD_SET_FLAGS NBD_FLAG_SEND_TRIM 22;
       EvFatalf "ioctl(%d, %d, %d) failed: %s" 22].
Proof.
  apply (set_flags_failure_exits LittleEndianHost (sample_device false)
           (sample_world [] (io_rejects NBD_SET_FLAGS) 0)).
  - vm_compute. reflexivity.
  - vm_compute. discriminate.
Defined.

Lemma CreateDevice_failure_witness :
  exists w',
    CreateDevice LittleEndianHost (counting_driver false) "/dev/nbd0" 1048576
      (sample_world [] (io_rejects NBD_SET_SIZE) 0) = (Halt ExitFatal, w') /\
    trace w' =
      [EvSocketpair None; EvOpenFile "/dev/nbd0" None;
       EvIoctl 5 NBD_SET_SIZE 1048576 22;
       EvFatalf "ioctl(%d, %d, %d) failed: %s" 22].
Proof.
  refine (proj1 (proj2 (CreateDevice_failure LittleEndianHost
                          (counting_driver false) "/dev/nbd0" 1048576
                          (sample_world [] (io_rejects NBD_SET_SIZE) 0)
                          (3, 4) _)) 5 _ _).
  - reflexivity.
  - reflexivity.
  - vm_compute. discriminate.
Defined.

(** With the node open and NBD_SET_SIZE rejected, [CreateDevice] reports
    nothing to its caller. *)
Lemma CreateDevice_size_rejected_counterexample :
  ~ construction_reports_failure LittleEndianHost (counting_driver false)
      "/dev/nbd0" 1048576 (sample_world [] (io_rejects NBD_SET_SIZE) 0).
Proof.
  intros H.
  destruct H as (e & w' & E).
  - right. exists 5. split; [reflexivity|]. vm_compute. discriminate.
  - vm_compute in E. discriminate.
Qed.

Lemma race_one_teardown_witness :
  let r := race_run [ExternalPath; LoopPath; ExternalPath; ExternalPath;
                     LoopPath; ExternalPath; ExternalPath; ExternalPath;
                     ExternalPath; LoopPath]
                    (race_init (sample_device false) (sample_world [] io_ok 1)) in
  exists k, (k <= 7)%nat /\
    trace (shared r)
    = trace (sample_world [] io_ok 1)
      ++ firstn k (Disconnect_events (sample_device false)
                     (sample_world [] io_ok 1)) /\
    receivers (shared r) = match k with O => 1%nat | S _ => 0%nat end /\
    ((loop_rest r = skipn k (Disconnect_steps (sample_device false)) /\
      ext_rest r = Disconnect_steps (sample_device false)) \/
     (ext_rest r = skipn k (Disconnect_steps (sample_device false)) /\
      loop_rest r = Disconnect_steps (sample_device false))) /\
    (race_over r ->
     k = 7%nat /\
     trace (shared r)
     = trace (sample_world [] io_ok 1)
       ++ Disconnect_events (sample_device false) (sample_world [] io_ok 1) /\
     ((loop_rest r = [] /\ ext_rest r = Disconnect_steps (sample_device false)) \/
      (ext_rest r = [] /\ loop_rest r = Disconnect_steps (sample_device false)))).
Proof.
  apply (race_one_teardown (sample_device false) (sample_world [] io_ok 1)).
  reflexivity.
Defined.

(** With one receiver parked, no schedule lets both callers of
    [Disconnect] return: one of them stays on its send. *)
Lemma race_blocks_counterexample :
  ~ both_callers_return (sample_device false) (sample_world [] io_ok 1).
Proof.
  intros (sched & Hl & He).
  destruct (race_inv_run (sample_device false) (sample_world [] io_ok 1) sched
              (race_init (sample_device false) (sample_world [] io_ok 1))
              eq_refl (race_inv_init _ _))
    as (k & _ & _ & [(_ & E) | (_ & E)]).
  - rewrite He in E. discriminate.
  - rewrite Hl in E. discriminate.
Qed.

(** * Further properties of the code *)

(** ** The codec, from bytes to values and back *)

Lemma byte_of_Z_mod (x : Z) (a : byte) :
  x mod 256 = Z_of_byte a -> byte_of_Z x = a.
Proof.
  intros H. unfold byte_of_Z. rewrite H. unfold Z_of_byte.
  rewrite N2Z.id, Byte.of_to_N. reflexivity.
Qed.

Lemma testbit_byte_high (x : byte) (i : Z) :
  8 <= i -> Z.testbit (Z_of_byte x) i = false.
Proof.
  intros H. apply (testbit_above _ 8 i); [|lia].
  pose proof (Z_of_byte_range x). change (2 ^ 8) with 256. lia.
Qed.

Lemma PutUint32_Uint32 (o : ByteOrder) (a b c d : byte) (rest : list byte) :
  PutUint32 o (Uint32 o (a :: b :: c :: d :: rest)) = [a; b; c; d].
Proof.
  destruct o; unfold PutUint32, Uint32; repeat f_equal;
    byte_at byte_of_Z_mod testbit_byte_high.
Qed.

Lemma PutUint64_Uint64 (o : ByteOrder) (a b c d e f g h : byte)
    (rest : list byte) :
  PutUint64 o (Uint64 o (a :: b :: c :: d :: e :: f :: g :: h :: rest))
  = [a; b; c; d; e; f; g; h].
Proof.
  destruct o; unfold PutUint64, Uint64; repeat f_equal;
    byte_at byte_of_Z_mod testbit_byte_high.
Qed.

Lemma Uint32_range (o : ByteOrder) (b : list byte) : 0 <= Uint32 o b < 2 ^ 32.
Proof.
  split; [apply Uint32_nonneg|].
  unfold Uint32. do 4 (destruct b as [|? b]; [lia|]).
  destruct o; no_bits_from 32 testbit_byte_high.
Qed.

Lemma Uint64_range (o : ByteOrder) (b : list byte) : 0 <= Uint64 o b < 2 ^ 64.
Proof.
  unfold Uint64. do 8 (destruct b as [|? b]; [lia|]).
  split.
  - destruct o;
      repeat (apply Z.lor_nonneg; split);
      try (apply Z.shiftl_nonneg); apply Z_of_byte_range.
  - destruct o; no_bits_from 64 testbit_byte_high.
Qed.

(** X1: whatever 28 bytes the decoder is given, the request it returns has
    every field in the range of its Go type, and encoding that request
    gives the same 28 bytes back. *)
Theorem request_decode_encode (o : ByteOrder) (b : list byte) (q : nbdRequest) :
  binary_Read o b = Some q ->
  wf_request q /\ binary_Write_request o q = firstn 28 b.
Proof.
  unfold binary_Read, binary_Size_request.
  destruct (List.length b <? 28)%nat eqn:E; [discriminate|].
  apply Nat.ltb_ge in E. cbv zeta.
  remember (firstn 28 b) as bs eqn:Hbs. intros [= <-].
  do 28 (destruct b as [|? b]; [cbn [List.length] in E; lia|]).
  cbn [firstn] in Hbs. subst bs. clear E. split.
  - unfold wf_request; cbn [Magic Type_ Handle From Length].
    repeat split; try apply Uint32_range; try apply Uint64_range.
  - unfold binary_Write_request, slice;
      cbn [Magic Type_ Handle From Length firstn skipn Nat.sub app].
    rewrite !PutUint32_Uint32, PutUint64_Uint64. reflexivity.
Qed.

(** ** Passes of the loop the claims leave out *)

Section FurtherProperties.

Variable arch : host.
Context {St : Type}.
Variable buseDriver : BuseInterface St.

(** X2: from loop variables whose reply carries the reply magic, the header
    a pass over a READ, WRITE, FLUSH or TRIM request writes starts with the
    four bytes of NBD_REPLY_MAGIC in wire order, and the loop variables of
    the next pass carry the magic and an eight-byte handle again. *)
Theorem reply_magic_kept bd l (w : world St) b n (w1 : world St) q :
  op bd = dispatch_table arch buseDriver ->
  fp_Read (buf l) w = (Val (b, n, None), w1) ->
  binary_Read (Endian arch) b = Some q ->
  Type_ q = NBD_CMD_READ \/ Type_ q = NBD_CMD_WRITE \/
  Type_ q = NBD_CMD_FLUSH \/ Type_ q = NBD_CMD_TRIM ->
  rMagic (reply l) = NBD_REPLY_MAGIC ->
  exists t,
    trace (snd (loop_body arch bd l w)) = trace w1 ++ t /\
    (forall hdr rest, written t = hdr :: rest ->
       firstn 4 hdr = [x67; x44; x66; x98] /\
       Uint32 (Endian arch) (slice hdr 0 4) = NBD_REPLY_MAGIC) /\
    (forall l', fst (loop_body arch bd l w) = Val (Continue l') ->
       rMagic (reply l') = NBD_REPLY_MAGIC /\
       List.length (rHandle (reply l')) = 8%nat).
Proof.
  intros Hop Hr Hd Hty Hm.
  destruct (binary_Read_some _ _ _ Hd) as (_ & Hlen & _).
  destruct (served_pass arch buseDriver bd l w b n w1 q Hop Hr Hd Hty)
    as (t & Ht & [(Hw & _ & _ & Hno) | (Hf & Hw & _)]); exists t.
  - split; [exact Ht|]. split.
    + intros hdr rest E. rewrite Hw in E. discriminate.
    + intros l' E. destruct (Hno l' E).
  - split; [exact Ht|]. split.
    + intros hdr rest E. rewrite Hw in E. injection E as <- _.
      rewrite Hm, Endian_BigEndian. split; reflexivity.
    + intros l' E. rewrite Hf in E. injection E as <-.
      cbn [reply rMagic rHandle]. auto.
Qed.

(** X3: a DISCONNECT request makes the backend's [Disconnect] run once and
    nothing else: no reply is written, nothing is taken off the channel, no
    teardown is started, and the loop goes on to read the next request. *)
Theorem disconnect_request_goes_on bd l (w : world St) b n (w1 : world St) q :
  op bd = dispatch_table arch buseDriver ->
  fp_Read (buf l) w = (Val (b, n, None), w1) ->
  binary_Read (Endian arch) b = Some q ->
  Type_ q = NBD_CMD_DISC ->
  let l' := mkLocals b q (set_Error 0 (set_Handle (Handle q) (reply l))) in
  let w2 := snd (loop_body arch bd l w) in
  fst (loop_body arch bd l w) = Val (Continue l') /\
  trace w2 = trace w1 ++ [EvLog "Calling buseDriver.Disconnect()" None;
                          EvDriverDisconnect] /\
  drv w2 = drvDisconnect buseDriver (drv w1) /\
  chan_in w2 = chan_in w1 /\
  receivers w2 = receivers w1 /\
  forall fuel, serve arch (S fuel) bd l w = serve arch fuel bd l' w2.
Proof.
  intros Hop Hr Hd T l' w2.
  assert (Hb : loop_body arch bd l w
               = (Val (Continue l'),
                  snd (opDeviceDisconnect buseDriver (make_bytes (Length q)) q
                         (set_Error 0 (set_Handle (Handle q) (reply l))) w1))).
  { rewrite (loop_body_dispatch arch bd l w b n w1 q Hr Hd), Hop, T.
    rewrite dispatch_lookup_DISC. destruct w1. reflexivity. }
  subst w2. rewrite Hb. cbn [fst snd].
  split; [reflexivity|].
  repeat split; try (destruct w1; cbn; rewrite <- ?app_assoc; reflexivity).
  intros fuel. rewrite serve_step, Hb. reflexivity.
Qed.

(** X4: when the read of a request header reports an error, the pass logs
    it and [Connect] returns nil: the backend is not called, nothing is
    written, and with the attach monitor parked the deferred teardown runs
    once. *)
Theorem channel_closed_returns_nil bd l (w : world St) b n e (w1 : world St) :
  fp_Read (buf l) w = (Val (b, n, Some e), w1) ->
  let w2 := logged [EvLog "NBD server stopped:" (Some e)] w1 in
  loop_body arch bd l w = (Val (Return None), w2) /\
  (forall fuel, serve arch (S fuel) bd l w = (Val None, w2)) /\
  drv w2 = drv w /\
  trace w2 = trace w ++ [EvReadErr e; EvLog "NBD server stopped:" (Some e)] /\
  (receivers w <> 0%nat ->
   forall fuel,
     deferred (Disconnect bd) (serve arch (S fuel) bd l) w
     = (Val None, after_Disconnect (Disconnect_events bd w2) w2)).
Proof.
  intros Hr w2.
  assert (Hb : loop_body arch bd l w = (Val (Return None), w2)).
  { unfold loop_body. rewrite (bind_val _ _ _ _ _ Hr).
    subst w2. destruct w1. reflexivity. }
  assert (Hs : forall fuel, serve arch (S fuel) bd l w = (Val None, w2))
    by (intros fuel; rewrite serve_step, Hb; reflexivity).
  assert (Hw : drv w1 = drv w /\ trace w1 = trace w ++ [EvReadErr e] /\
               receivers w1 = receivers w).
  { destruct (fp_Read_cases (buf l) w)
      as [(_ & E) | [(_ & _ & E) | [(e1 & c' & _ & _ & E) |
          [(bs & c' & _ & _ & _ & E) | (bs & c' & d & _ & _ & _ & _ & E)]]]];
      rewrite E in Hr; inversion Hr; subst; clear Hr;
      cbn [after_read drv trace receivers]; auto. }
  destruct Hw as (Hdrv & Htr & Hrc).
  split; [exact Hb|]. split; [exact Hs|]. split; [exact Hdrv|].
  split; [subst w2; cbn [logged trace]; rewrite Htr, <- app_assoc; reflexivity|].
  intros Hpark fuel.
  apply deferred_val with (w1 := w2); [apply Hs|].
  apply Disconnect_runs. subst w2. cbn [logged receivers]. rewrite Hrc. exact Hpark.
Qed.

(** X5: a READ whose [ReadAt] fails is still answered in full: the header
    with error 1 and the request's handle, then the buffer as the backend
    left it, and the loop goes on with error 1 left in its reply. *)
Theorem read_failure_still_sends_payload bd l (w : world St) b n
    (w1 : world St) q s' p e :
  op bd = dispatch_table arch buseDriver ->
  fp_Read (buf l) w = (Val (b, n, None), w1) ->
  binary_Read (Endian arch) b = Some q ->
  Type_ q = NBD_CMD_READ ->
  ReadAt buseDriver (drv w1) (make_bytes (Length q)) (uint (From q))
  = (s', p, Some e) ->
  let rep := mkReply (rMagic (reply l)) 1 (Handle q) in
  exists t,
    trace (snd (loop_body arch bd l w)) = trace w1 ++ t /\
    written t = [encode_reply (Endian arch) rep; p] /\
    Uint32 (Endian arch) (slice (encode_reply (Endian arch) rep) 4 8) = 1 /\
    fst (loop_body arch bd l w) = Val (Continue (mkLocals b q rep)).
Proof.
  intros Hop Hr Hd T Hb rep.
  destruct (served_pass arch buseDriver bd l w b n w1 q Hop Hr Hd (or_introl T))
    as (t & Ht & [(_ & T' & _) | (Hf & Hw & _)]).
  - rewrite T in T'. discriminate.
  - exists t. split; [exact Ht|].
    unfold backend_failed, chunk_for in Hf, Hw. rewrite T in Hf, Hw.
    cbn [Z.eqb NBD_CMD_READ NBD_CMD_WRITE] in Hf, Hw. rewrite Hb in Hf, Hw.
    cbn [fst snd failed_of] in Hf, Hw. fold rep in Hf, Hw.
    split; [exact Hw|]. split; [|exact Hf].
    unfold rep. rewrite encode_reply_error; cbn [Error]; [reflexivity | lia].
Qed.

(** X6: a WRITE request of length 0 issues no read for its payload: the
    backend is called on the empty buffer, what is to come on the channel
    stays for the next header, and the loop goes on. *)
Theorem empty_write_takes_no_payload bd l (w : world St) b n (w1 : world St) q :
  op bd = dispatch_table arch buseDriver ->
  fp_Read (buf l) w = (Val (b, n, None), w1) ->
  binary_Read (Endian arch) b = Some q ->
  Type_ q = NBD_CMD_WRITE ->
  Length q = 0 ->
  chan_in (snd (loop_body arch bd l w)) = chan_in w1 /\
  (exists t, trace (snd (loop_body arch bd l w))
             = trace w1 ++ EvWriteAt [] (uint (From q)) :: t) /\
  exists l', fst (loop_body arch bd l w) = Val (Continue l').
Proof.
  intros Hop Hr Hd T L.
  assert (Hp : fp_Read (make_bytes (Length q)) w1 = (Val ([], 0%nat, None), w1))
    by (rewrite L; reflexivity).
  assert (Hh : nth_error (op bd) (Z.to_nat (Type_ q))
               = Some (opDeviceWrite arch buseDriver))
    by (rewrite Hop, T; apply dispatch_lookup_WRITE).
  rewrite (loop_body_snd arch bd l w b n w1 q _ Hr Hd Hh).
  split; [|split].
  - destruct (opDeviceWrite_answers arch buseDriver _ q
                (set_Error 0 (set_Handle (Handle q) (reply l))) w1 _ _ _ Hp)
      as (t & _ & _ & _ & Hc & _).
    exact Hc.
  - apply (opDeviceWrite_calls_backend arch buseDriver _ q _ w1 _ _ _ Hp).
  - destruct (served_pass arch buseDriver bd l w b n w1 q Hop Hr Hd
                (or_intror (or_introl T)))
      as (t & _ & [(_ & _ & Hno & _) | (Hf & _)]).
    + destruct (Hno _ _ _ Hp).
    + eexists. exact Hf.
Qed.

(** X7: when the dispatch panics on a request type above 4, the deferred
    [Disconnect] still runs, once and to its end, before the panic goes on:
    nothing is written and the backend is not called. *)
Theorem unknown_type_still_tears_down bd l (w : world St) b n (w1 : world St) q :
  op bd = dispatch_table arch buseDriver ->
  fp_Read (buf l) w = (Val (b, n, None), w1) ->
  binary_Read (Endian arch) b = Some q ->
  4 < Type_ q ->
  receivers w1 <> 0%nat ->
  forall fuel,
    deferred (Disconnect bd) (serve arch (S fuel) bd l) w
    = (Halt PanicIndex, after_Disconnect (Disconnect_events bd w1) w1).
Proof.
  intros Hop Hr Hd Hgt Hpark fuel.
  unfold deferred. rewrite serve_step.
  rewrite (loop_body_dispatch arch bd l w b n w1 q Hr Hd), Hop.
  rewrite (dispatch_lookup_outside arch buseDriver _ Hgt).
  rewrite (Disconnect_runs bd w1 Hpark). reflexivity.
Qed.

(** ** Setup and teardown the claims leave out *)



(** X9: [CreateDevice] returns a device exactly when the socket pair, the
    open of the node and the three control calls all succeed.  The device
    then comes with a nil error, the five handlers in its table, the node's
    descriptor and the socket pair; the control calls were issued in the
    order NBD_SET_SIZE, NBD_CLEAR_QUE, NBD_CLEAR_SOCK, and no goroutine is
    parked on its disconnect channel. *)
Theorem CreateDevice_returns_device_iff device size (w : world St) :
  ((exists bd oe w',
      CreateDevice arch buseDriver device size w = (Val (Some bd, oe), w')) <->
   (exists sp fp,
      socketpair_res w = inl sp /\ openfile_res w = inl fp /\
      ioctl_res w NBD_SET_SIZE size = 0 /\
      ioctl_res w NBD_CLEAR_QUE 0 = 0 /\
      ioctl_res w NBD_CLEAR_SOCK 0 = 0)) /\
  (forall bd oe w',
     CreateDevice arch buseDriver device size w = (Val (Some bd, oe), w') ->
     oe = None /\
     bd = mkDevice size device buseDriver (deviceFp bd) (socketPair bd)
                   (dispatch_table arch buseDriver) /\
     socketpair_res w = inl (socketPair bd) /\
     openfile_res w = inl (deviceFp bd) /\
     receivers w' = 0%nat /\
     trace w' = trace w ++
       [EvSocketpair None; EvOpenFile device None;
        EvIoctl (deviceFp bd) NBD_SET_SIZE size 0;
        EvIoctl (deviceFp bd) NBD_CLEAR_QUE 0 0;
        EvIoctl (deviceFp bd) NBD_CLEAR_SOCK 0 0]).
Proof.
  destruct w as [ci co io [sp|es] [fp|eo] opr d rc tr];
    unfold CreateDevice, ioctl, Syscall_ioctl, log_Fatalf, bind, get, emit,
      set_receivers, ret, stop;
    cbn [ioctl_res chan_in chan_out socketpair_res openfile_res open_res drv
         receivers trace].
  2-4: (split; [split|]);
       [ intros (bd & oe & w' & E); discriminate
       | intros (sp' & fp' & H1 & H2 & _); discriminate
       | intros bd oe w' E; discriminate ].
  destruct (io NBD_SET_SIZE size =? 0) eqn:E1;
    cbn [negb ioctl_res chan_in chan_out socketpair_res openfile_res open_res
         drv receivers trace];
    [destruct (io NBD_CLEAR_QUE 0 =? 0) eqn:E2;
     cbn [negb ioctl_res chan_in chan_out socketpair_res openfile_res
          open_res drv receivers trace];
     [destruct (io NBD_CLEAR_SOCK 0 =? 0) eqn:E3;
      cbn [negb ioctl_res chan_in chan_out socketpair_res openfile_res
           open_res drv receivers trace]| ]| ].
  - apply Z.eqb_eq in E1, E2, E3. split; [split|].
    + intros _. exists sp, fp. auto.
    + intros _. do 3 eexists. reflexivity.
    + intros bd oe w' [= <- <- <-]. cbn [deviceFp socketPair receivers trace].
      rewrite E1, E2, E3. repeat rewrite <- app_assoc.
      repeat split; reflexivity.
  - apply Z.eqb_neq in E3. split; [split|].
    + intros (bd & oe & w' & E); discriminate.
    + intros (sp' & fp' & _ & _ & _ & _ & H); contradiction.
    + intros bd oe w' E; discriminate.
  - apply Z.eqb_neq in E2. split; [split|].
    + intros (bd & oe & w' & E); discriminate.
    + intros (sp' & fp' & _ & _ & _ & H & _); contradiction.
    + intros bd oe w' E; discriminate.
  - apply Z.eqb_neq in E1. split; [split|].
    + intros (bd & oe & w' & E); discriminate.
    + intros (sp' & fp' & _ & _ & H & _); contradiction.
    + intros bd oe w' E; discriminate.
Qed.

(** X10: whatever fails, [CreateDevice] closes nothing it has opened: no
    close is among the events it adds, so the socket pair stays open when
    the node cannot be opened, and the node and the sockets stay open when
    a control call ends the process. *)
Theorem CreateDevice_never_closes device size (w : world St) :
  exists t,
    trace (snd (CreateDevice arch buseDriver device size w)) = trace w ++ t /\
    In (EvSocketpair (match socketpair_res w with
                      | inl _ => None
                      | inr e => Some e
                      end)) t /\
    forall fd, ~ In (EvClose fd) t.
Proof.
  destruct w as [ci co io [sp|es] [fp|eo] opr d rc tr];
    unfold CreateDevice, ioctl, Syscall_ioctl, log_Fatalf, bind, get, emit,
      set_receivers, ret, stop;
    cbn [ioctl_res chan_in chan_out socketpair_res openfile_res open_res drv
         receivers trace fst snd].
  2-4: eexists; (split; [repeat rewrite <- app_assoc; reflexivity|]);
       (split; [cbn; auto|]);
       intros fd H; cbn in H; intuition discriminate.
  destruct (io NBD_SET_SIZE size =? 0);
    cbn [negb ioctl_res chan_in chan_out socketpair_res openfile_res open_res
         drv receivers trace fst snd];
    [destruct (io NBD_CLEAR_QUE 0 =? 0);
     cbn [negb ioctl_res chan_in chan_out socketpair_res openfile_res
          open_res drv receivers trace fst snd];
     [destruct (io NBD_CLEAR_SOCK 0 =? 0);
      cbn [negb ioctl_res chan_in chan_out socketpair_res openfile_res
           open_res drv receivers trace fst snd]| ]| ];
    eexists; (split; [repeat rewrite <- app_assoc; reflexivity|]);
    (split; [cbn; auto|]);
    intros fd H; cbn in H; intuition discriminate.
Qed.

Lemma CreateDevice_receivers device size (w : world St) bd oe w' :
  CreateDevice arch buseDriver device size w = (Val (Some bd, oe), w') ->
  receivers w' = 0%nat.
Proof.
  destruct w as [ci co io [sp|es] [fp|eo] opr d rc tr];
    unfold CreateDevice, ioctl, Syscall_ioctl, log_Fatalf, bind, get, emit,
      set_receivers, ret, stop;
    cbn [ioctl_res chan_in chan_out socketpair_res openfile_res open_res drv
         receivers trace]; try discriminate.
  destruct (io NBD_SET_SIZE size =? 0);
    cbn [negb ioctl_res chan_in chan_out socketpair_res openfile_res open_res
         drv receivers trace]; [|discriminate].
  destruct (io NBD_CLEAR_QUE 0 =? 0);
    cbn [negb ioctl_res chan_in chan_out socketpair_res openfile_res open_res
         drv receivers trace]; [|discriminate].
  destruct (io NBD_CLEAR_SOCK 0 =? 0);
    cbn [negb ioctl_res chan_in chan_out socketpair_res openfile_res open_res
         drv receivers trace]; [|discriminate].
  intros [= <- <- <-]. reflexivity.
Qed.

(** X11: [Disconnect] on a device that [CreateDevice] has just returned,
    before any [Connect], never returns: nobody receives on the fresh
    disconnect channel, so the caller parks on the send, and no control
    call is made and nothing is closed. *)
Theorem Disconnect_before_Connect_blocks device size (w : world St) bd oe w' :
  CreateDevice arch buseDriver device size w = (Val (Some bd, oe), w') ->
  Disconnect bd w' = (Halt Blocked, w').
Proof.
  intros H. apply Disconnect_blocks.
  apply (CreateDevice_receivers device size w bd oe w' H).
Qed.

(** ** Failed writes of a reply *)

Lemma fp_Read_chan_out b (w : world St) r w1 :
  fp_Read b w = (r, w1) -> chan_out w1 = chan_out w.
Proof.
  intros H.
  destruct (fp_Read_cases b w)
    as [(_ & E) | [(_ & _ & E) | [(e1 & c' & _ & _ & E) |
        [(bs & c' & _ & _ & _ & E) | (bs & c' & d & _ & _ & _ & _ & E)]]]];
    rewrite E in H; inversion H; subst; reflexivity.
Qed.

(** A replying handler whose first write fails logs the failure. *)
Lemma failed_header_write_logged h chunk q rep (w : world St) e co :
  In h [opDeviceRead arch buseDriver; opDeviceFlush arch buseDriver;
        opDeviceTrim arch buseDriver] ->
  chan_out w = Some e :: co ->
  exists t,
    trace (snd (h chunk q rep w)) = trace w ++ t /\
    In (EvLog "Write error, when sending reply header:" (Some e)) t.
Proof.
  intros Hh Hc. destruct w as [ci co0 io sp ofr opr d rc tr].
  cbn [chan_out] in Hc. subst co0.
  destruct Hh as [<- | [<- | [<- | []]]].
  - unfold opDeviceRead. unfold send_header, binary_Write, fp_Write, log_Println,
      driver_ReadAt, driver_WriteAt, driver_Flush, driver_Trim,
      bind, ret, get, emit, set_drv, set_chan_out; cbn.
    destruct (ReadAt buseDriver d chunk (uint (From q))) as [[s' p'] [e1|]];
      cbn; destruct co as [|[e2|] co]; cbn;
      eexists; (split; [repeat rewrite <- app_assoc; reflexivity|]);
      cbn; auto 8.
  - unfold opDeviceFlush. unfold send_header, binary_Write, fp_Write, log_Println,
      driver_ReadAt, driver_WriteAt, driver_Flush, driver_Trim,
      bind, ret, get, emit, set_drv, set_chan_out; cbn.
    destruct (Flush buseDriver d) as [s' [e1|]]; cbn;
      eexists; (split; [repeat rewrite <- app_assoc; reflexivity|]);
      cbn; auto 8.
  - unfold opDeviceTrim. unfold send_header, binary_Write, fp_Write, log_Println,
      driver_ReadAt, driver_WriteAt, driver_Flush, driver_Trim,
      bind, ret, get, emit, set_drv, set_chan_out; cbn.
    destruct (Trim buseDriver d (uint (From q)) (uint (Length q))) as [s' [e1|]];
      cbn; eexists; (split; [repeat rewrite <- app_assoc; reflexivity|]);
      cbn; auto 8.
Qed.

Lemma failed_header_write_logged_WRITE chunk q rep (w : world St) c n
    (w1 : world St) e co :
  fp_Read chunk w = (Val (c, n, None), w1) ->
  chan_out w = Some e :: co ->
  exists t,
    trace (snd (opDeviceWrite arch buseDriver chunk q rep w)) = trace w ++ t /\
    In (EvLog "Write error, when sending reply header:" (Some e)) t.
Proof.
  intros Hp Hc.
  pose proof (fp_Read_chan_out _ _ _ _ Hp) as Hc1. rewrite Hc in Hc1.
  destruct (fp_Read_ok_length _ _ _ _ _ Hp) as (_ & _ & _ & _ & _ & t0 & Ht0 & _).
  unfold opDeviceWrite. rewrite (bind_val _ _ _ _ _ Hp).
  destruct w1 as [ci co1 io sp ofr opr d rc tr].
  cbn [chan_out trace] in Hc1, Ht0. subst co1. subst tr.
  unfold send_header, binary_Write, fp_Write, log_Println, driver_WriteAt,
    bind, ret, get, emit, set_drv, set_chan_out; cbn.
  destruct (WriteAt buseDriver d c (uint (From q))) as [s' [e1|]]; cbn;
    eexists; (split; [repeat rewrite <- app_assoc; reflexivity|]);
    rewrite in_app_iff; right; cbn; auto 8.
Qed.

(** X12: when the write of a reply header fails, the pass logs the failure
    and does nothing else about it: the loop goes on to its next pass as
    after a write that went through. *)
Theorem reply_write_failure_is_logged bd l (w : world St) b n (w1 : world St)
    q e co :
  op bd = dispatch_table arch buseDriver ->
  fp_Read (buf l) w = (Val (b, n, None), w1) ->
  binary_Read (Endian arch) b = Some q ->
  Type_ q = NBD_CMD_READ \/ Type_ q = NBD_CMD_FLUSH \/ Type_ q = NBD_CMD_TRIM \/
  (Type_ q = NBD_CMD_WRITE /\
   exists c n' w1',
     fp_Read (make_bytes (Length q)) w1 = (Val (c, n', None), w1')) ->
  chan_out w1 = Some e :: co ->
  exists t,
    trace (snd (loop_body arch bd l w)) = trace w1 ++ t /\
    In (EvLog "Write error, when sending reply header:" (Some e)) t /\
    exists l',
      fst (loop_body arch bd l w) = Val (Continue l') /\
      forall fuel,
        serve arch (S fuel) bd l w
        = serve arch fuel bd l' (snd (loop_body arch bd l w)).
Proof.
  intros Hop Hr Hd Hty Hc.
  assert (Hlog : exists t,
             trace (snd (loop_body arch bd l w)) = trace w1 ++ t /\
             In (EvLog "Write error, when sending reply header:" (Some e)) t).
  { destruct Hty as [T | [T | [T | (T & c & n' & w1' & Hp)]]].
    - rewrite (loop_body_snd arch bd l w b n w1 q (opDeviceRead arch buseDriver)
                 Hr Hd) by (rewrite Hop, T; reflexivity).
      apply failed_header_write_logged with (co := co); [cbn; auto|exact Hc].
    - rewrite (loop_body_snd arch bd l w b n w1 q (opDeviceFlush arch buseDriver)
                 Hr Hd) by (rewrite Hop, T; reflexivity).
      apply failed_header_write_logged with (co := co); [cbn; auto|exact Hc].
    - rewrite (loop_body_snd arch bd l w b n w1 q (opDeviceTrim arch buseDriver)
                 Hr Hd) by (rewrite Hop, T; reflexivity).
      apply failed_header_write_logged with (co := co); [cbn; auto|exact Hc].
    - rewrite (loop_body_snd arch bd l w b n w1 q (opDeviceWrite arch buseDriver)
                 Hr Hd) by (rewrite Hop, T; reflexivity).
      apply (failed_header_write_logged_WRITE _ q _ w1 c n' w1' e co Hp Hc). }
  destruct Hlog as (t & Ht & Hin). exists t. split; [exact Ht|].
  split; [exact Hin|].
  assert (Hty' : Type_ q = NBD_CMD_READ \/ Type_ q = NBD_CMD_WRITE \/
                 Type_ q = NBD_CMD_FLUSH \/ Type_ q = NBD_CMD_TRIM)
    by (destruct Hty as [T | [T | [T | (T & _)]]]; auto).
  destruct (served_pass arch buseDriver bd l w b n w1 q Hop Hr Hd Hty')
    as (t' & _ & [(_ & T & Hno & _) | (Hf & _)]).
  - exfalso. destruct Hty as [T' | [T' | [T' | (_ & c & n' & w1' & Hp)]]];
      try (rewrite T in T'; discriminate).
    destruct (Hno _ _ _ Hp).
  - eexists. split; [exact Hf|].
    intros fuel. rewrite serve_step.
    destruct (loop_body arch bd l w) as [r w2]. cbn [fst snd] in *.
    subst r. reflexivity.
Qed.

(** ** No header is ever reported as invalid *)

Lemma decodes_ret {A} (a : A) : decodes_all (St := St) (ret a).
Proof. intros w. exists []. cbn. rewrite app_nil_r. auto. Qed.

Lemma decodes_stop {A} (h : halt) : decodes_all (St := St) (A := A) (stop h).
Proof. intros w. exists []. cbn. rewrite app_nil_r. auto. Qed.

Lemma decodes_bind {A B} (m : M St A) (k : A -> M St B) :
  decodes_all m -> (forall a, decodes_all (k a)) -> decodes_all (bind m k).
Proof.
  intros Hm Hk w. unfold bind.
  destruct (Hm w) as (t1 & H1 & F1).
  destruct (m w) as [[a|h] w1]; cbn [fst snd] in *.
  - destruct (Hk a w1) as (t2 & H2 & F2).
    exists (t1 ++ t2). rewrite H2, H1, app_assoc, forallb_app, F1, F2. auto.
  - exists t1. auto.
Qed.

Lemma decodes_emit (e : event) :
  decoded_only e = true -> decodes_all (St := St) (emit e).
Proof. intros He w. exists [e]. cbn. rewrite He. auto. Qed.

Lemma decodes_fp_Read (b : list byte) : decodes_all (St := St) (fp_Read b).
Proof.
  intros w.
  destruct (fp_Read_cases b w)
    as [(_ & E) | [(_ & _ & E) | [(e1 & c' & _ & _ & E) |
        [(bs & c' & _ & _ & _ & E) | (bs & c' & d & _ & _ & _ & _ & E)]]]];
    rewrite E; cbn [fst snd after_read trace].
  - exists []. rewrite app_nil_r. auto.
  - exists []. rewrite app_nil_r. auto.
  - eexists. split; [reflexivity|]. auto.
  - eexists. split; [reflexivity|]. auto.
  - eexists. split; [reflexivity|]. auto.
Qed.

Lemma decodes_fp_Write (bs : list byte) : decodes_all (St := St) (fp_Write bs).
Proof.
  intros w. destruct w as [ci [|r co] io sp ofr opr d rc tr];
    unfold fp_Write, bind, get, set_chan_out, emit, ret; cbn;
    eexists; (split; [reflexivity|]); auto.
Qed.

Lemma decodes_send_header rep (k : M St (nbdReply * option error)) :
  decodes_all k -> decodes_all (send_header arch rep k).
Proof.
  intros Hk. unfold send_header, binary_Write.
  apply decodes_bind; [apply decodes_fp_Write|]. intros werr.
  apply decodes_bind; [|intros _; exact Hk].
  destruct werr; [apply decodes_emit; reflexivity | apply decodes_ret].
Qed.

Lemma decodes_handler h chunk q rep :
  In h (dispatch_table arch buseDriver) -> decodes_all (h chunk q rep).
Proof.
  intros [<- | [<- | [<- | [<- | [<- | []]]]]].
  - unfold opDeviceRead. apply decodes_bind.
    + backend_call w.
      destruct (ReadAt buseDriver d chunk (uint (From q))) as [[s' p'] e]; cbn.
      eexists; (split; [reflexivity|]); auto.
    + intros [c e]. apply decodes_bind.
      * destruct e; [|apply decodes_ret].
        apply decodes_bind; [apply decodes_emit; reflexivity|].
        intros _; apply decodes_ret.
      * intros rep'. apply decodes_send_header.
        apply decodes_bind; [apply decodes_fp_Write|]. intros werr.
        apply decodes_bind; [|intros _; apply decodes_ret].
        destruct werr; [apply decodes_emit; reflexivity | apply decodes_ret].
  - unfold opDeviceWrite.
    apply decodes_bind; [apply decodes_fp_Read|]. intros [[c n] [e|]].
    + apply decodes_ret.
    + apply decodes_bind.
      * backend_call w.
        destruct (WriteAt buseDriver d c (uint (From q))) as [s' e]; cbn.
        eexists; (split; [reflexivity|]); auto.
      * intros e. apply decodes_bind.
        -- destruct e; [|apply decodes_ret].
           apply decodes_bind; [apply decodes_emit; reflexivity|].
           intros _; apply decodes_ret.
        -- intros rep'. apply decodes_send_header. apply decodes_ret.
  - unfold opDeviceDisconnect.
    apply decodes_bind; [apply decodes_emit; reflexivity|intros _].
    apply decodes_bind; [|intros _; apply decodes_ret].
    backend_call w. eexists; (split; [reflexivity|]); auto.
  - unfold opDeviceFlush. apply decodes_bind.
    + backend_call w. destruct (Flush buseDriver d) as [s' e]; cbn.
      eexists; (split; [reflexivity|]); auto.
    + intros e. apply decodes_bind.
      * destruct e; [|apply decodes_ret].
        apply decodes_bind; [apply decodes_emit; reflexivity|].
        intros _; apply decodes_ret.
      * intros rep'. apply decodes_send_header. apply decodes_ret.
  - unfold opDeviceTrim. apply decodes_bind.
    + backend_call w.
      destruct (Trim buseDriver d (uint (From q)) (uint (Length q))) as [s' e];
        cbn.
      eexists; (split; [reflexivity|]); auto.
    + intros e. apply decodes_bind.
      * destruct e; [|apply decodes_ret].
        apply decodes_bind; [apply decodes_emit; reflexivity|].
        intros _; apply decodes_ret.
      * intros rep'. apply decodes_send_header. apply decodes_ret.
Qed.

Lemma decodes_loop_body bd l :
  op bd = dispatch_table arch buseDriver ->
  (28 <= List.length (buf l))%nat ->
  decodes_all (loop_body arch bd l).
Proof.
  intros Hop Hlen w.
  destruct (fp_Read_cases (buf l) w)
    as [(H0 & _) | [(_ & _ & E) | [(e1 & c' & _ & _ & E) |
        [(bs & c' & _ & _ & _ & E) | (bs & c' & d & _ & _ & _ & _ & E)]]]].
  - lia.
  - unfold loop_body. rewrite (bind_halt _ _ _ _ _ E). cbn [fst snd].
    exists []. rewrite app_nil_r. auto.
  - unfold loop_body. rewrite (bind_val _ _ _ _ _ E).
    destruct w. cbn. eexists. rewrite <- app_assoc. split; [reflexivity|]. auto.
  - unfold loop_body. rewrite (bind_val _ _ _ _ _ E).
    destruct w. cbn. eexists. rewrite <- app_assoc. split; [reflexivity|]. auto.
  - destruct (fp_Read_ok_length _ _ _ _ _ E) as (Hb & _).
    destruct (binary_Read_total (Endian arch) (d ++ skipn (List.length d) (buf l)))
      as (q & Hq); [lia|].
    destruct (nth_error (op bd) (Z.to_nat (Type_ q))) as [h|] eqn:Hh.
    + rewrite (loop_body_snd arch bd l w _ _ _ q h E Hq Hh).
      assert (Hin : In h (dispatch_table arch buseDriver))
        by (rewrite <- Hop; apply (nth_error_In _ _ Hh)).
      destruct (decodes_handler h (make_bytes (Length q)) q
                  (set_Error 0 (set_Handle (Handle q) (reply l))) Hin
                  (after_read c' (EvRead d) w)) as (t & Ht & Ft).
      exists (EvRead d :: t). rewrite Ht. cbn [after_read trace].
      rewrite <- app_assoc. split; [reflexivity|]. cbn. exact Ft.
    + rewrite (loop_body_dispatch arch bd l w _ _ _ q E Hq), Hh.
      cbn [fst snd after_read trace]. eexists. split; [reflexivity|]. auto.
Qed.

(** X13: in the loop of [Connect], whose request buffer holds at least the
    28 bytes of a header, [binary.Read] never fails and the magic is never
    compared: however long the loop runs and whatever the channel delivers,
    no header is logged as an invalid request, and every event added is one
    of serving. *)
Theorem loop_decodes_every_header fuel bd l (w : world St) :
  op bd = dispatch_table arch buseDriver ->
  (28 <= List.length (buf l))%nat ->
  exists t,
    trace (snd (serve arch fuel bd l w)) = trace w ++ t /\
    forallb decoded_only t = true /\
    forall cause, ~ In (EvLog "Received invalid NBD request:" cause) t.
Proof.
  intros Hop Hlen.
  assert (H : exists t, trace (snd (serve arch fuel bd l w)) = trace w ++ t /\
                        forallb decoded_only t = true).
  { revert l w Hlen.
    induction fuel as [|fuel IH]; intros l w Hlen.
    - apply decodes_stop.
    - rewrite serve_step.
      destruct (decodes_loop_body bd l Hop Hlen w) as (t1 & H1 & F1).
      pose proof (loop_body_progress arch buseDriver bd l w Hop Hlen) as Hp.
      destruct (loop_body arch bd l w) as [[[l'|e]|h] w1]; cbn [fst snd] in *.
      + destruct Hp as (Hb & _).
        destruct (IH l' w1) as (t2 & H2 & F2); [lia|].
        exists (t1 ++ t2). rewrite H2, H1, app_assoc, forallb_app, F1, F2. auto.
      + exists t1. auto.
      + exists t1. auto. }
  destruct H as (t & Ht & Ft). exists t. split; [exact Ht|]. split; [exact Ft|].
  intros cause Hin.
  rewrite forallb_forall in Ft. specialize (Ft _ Hin). discriminate.
Qed.

End FurtherProperties.

(** ** The further properties on the sample worlds *)

Lemma request_decode_encode_witness :
  wf_request (sample_request NBD_CMD_READ 4096 512) /\
  binary_Write_request BigEndian (sample_request NBD_CMD_READ 4096 512)
  = firstn 28 (sample_header NBD_CMD_READ 4096 512 ++ [xaa; xbb; xcc; xdd]).
Proof.
  apply (request_decode_encode BigEndian
           (sample_header NBD_CMD_READ 4096 512 ++ [xaa; xbb; xcc; xdd])
           (sample_request NBD_CMD_READ 4096 512)).
  vm_compute. reflexivity.
Defined.

Lemma reply_magic_kept_witness :
  exists t,
    trace (snd (loop_body LittleEndianHost (sample_device false)
                  initial_locals flush_world))
    = trace (after_header flush_world) ++ t /\
    (forall hdr rest, written t = hdr :: rest ->
       firstn 4 hdr = [x67; x44; x66; x98] /\
       Uint32 (Endian LittleEndianHost) (slice hdr 0 4) = NBD_REPLY_MAGIC) /\
    (forall l',
       fst (loop_body LittleEndianHost (sample_device false)
              initial_locals flush_world) = Val (Continue l') ->
       rMagic (reply l') = NBD_REPLY_MAGIC /\
       List.length (rHandle (reply l')) = 8%nat).
Proof.
  apply (reply_magic_kept LittleEndianHost (counting_driver false)
           (sample_device false) initial_locals flush_world
           (header_buf flush_world) 28%nat (after_header flush_world)
           (sample_request NBD_CMD_FLUSH 0 0)).
  - reflexivity.
  - vm_compute. reflexivity.
  - vm_compute. reflexivity.
  - right. right. left. reflexivity.
  - reflexivity.
Defined.

Lemma disconnect_request_goes_on_witness :
  let l' := mkLocals (header_buf disc_world) (sample_request NBD_CMD_DISC 0 0)
              (set_Error 0
                 (set_Handle (Handle (sample_request NBD_CMD_DISC 0 0))
                             (reply initial_locals))) in
  let w2 := snd (loop_body LittleEndianHost (sample_device false)
                   initial_locals disc_world) in
  fst (loop_body LittleEndianHost (sample_device false) initial_locals
         disc_world) = Val (Continue l') /\
  trace w2 = trace (after_header disc_world)
             ++ [EvLog "Calling buseDriver.Disconnect()" None;
                 EvDriverDisconnect] /\
  drv w2 = drvDisconnect (counting_driver false) (drv (after_header disc_world)) /\
  chan_in w2 = chan_in (after_header disc_world) /\
  receivers w2 = receivers (after_header disc_world) /\
  forall fuel,
    serve LittleEndianHost (S fuel) (sample_device false) initial_locals
          disc_world
    = serve LittleEndianHost fuel (sample_device false) l' w2.
Proof.
  apply (disconnect_request_goes_on LittleEndianHost (counting_driver false)
           (sample_device false) initial_locals disc_world
           (header_buf disc_world) 28%nat (after_header disc_world)
           (sample_request NBD_CMD_DISC 0 0)).
  - reflexivity.
  - vm_compute. reflexivity.
  - vm_compute. reflexivity.
  - reflexivity.
Defined.

Lemma channel_closed_returns_nil_witness :
  let w2 := logged [EvLog "NBD server stopped:" (Some EOF)]
                   (after_header closed_world) in
  deferred (Disconnect (sample_device false))
           (serve LittleEndianHost 2 (sample_device false) initial_locals)
           closed_world
  = (Val None,
     after_Disconnect (Disconnect_events (sample_device false) w2) w2).
Proof.
  intros w2.
  refine (proj2 (proj2 (proj2 (proj2
            (channel_closed_returns_nil LittleEndianHost (sample_device false)
               initial_locals closed_world (buf initial_locals) 0%nat EOF
               (after_header closed_world) _)))) _ 1%nat).
  - vm_compute. reflexivity.
  - vm_compute. discriminate.
Defined.


Lemma read_failure_still_sends_payload_witness :
  let rep := mkReply (rMagic (reply initial_locals)) 1
                     (Handle (sample_request NBD_CMD_READ 0 2)) in
  exists t,
    trace (snd (loop_body LittleEndianHost (sample_device true)
                  initial_locals read_world))
    = trace (after_header read_world) ++ t /\
    written t = [encode_reply (Endian LittleEndianHost) rep; [xff; xff]] /\
    Uint32 (Endian LittleEndianHost)
           (slice (encode_reply (Endian LittleEndianHost) rep) 4 8) = 1 /\
    fst (loop_body LittleEndianHost (sample_device true) initial_locals
           read_world)
    = Val (Continue (mkLocals (header_buf read_world)
                              (sample_request NBD_CMD_READ 0 2) rep)).
Proof.
  apply (read_failure_still_sends_payload LittleEndianHost (counting_driver true)
           (sample_device true) initial_locals read_world
           (header_buf read_world) 28%nat (after_header read_world)
           (sample_request NBD_CMD_READ 0 2) 1%nat [xff; xff]
           (DriverError "read failed")).
  - reflexivity.
  - vm_compute. reflexivity.
  - vm_compute. reflexivity.
  - reflexivity.
  - vm_compute. reflexivity.
Defined.

Lemma empty_write_takes_no_payload_witness :
  chan_in (snd (loop_body LittleEndianHost (sample_device false)
                  initial_locals empty_write_world))
  = chan_in (after_header empty_write_world) /\
  (exists t,
     trace (snd (loop_body LittleEndianHost (sample_device false)
                   initial_locals empty_write_world))
     = trace (after_header empty_write_world)
       ++ EvWriteAt [] (uint (From (sample_request NBD_CMD_WRITE 512 0))) :: t) /\
  exists l',
    fst (loop_body LittleEndianHost (sample_device false) initial_locals
           empty_write_world) = Val (Continue l').
Proof.
  apply (empty_write_takes_no_payload LittleEndianHost (counting_driver false)
           (sample_device false) initial_locals empty_write_world
           (header_buf empty_write_world) 28%nat
           (after_header empty_write_world)
           (sample_request NBD_CMD_WRITE 512 0)).
  - reflexivity.
  - vm_compute. reflexivity.
  - vm_compute. reflexivity.
  - reflexivity.
  - reflexivity.
Defined.

Lemma unknown_type_still_tears_down_witness :
  deferred (Disconnect (sample_device false))
           (serve LittleEndianHost 2 (sample_device false) initial_locals)
           unknown_world
  = (Halt PanicIndex,
     after_Disconnect
       (Disconnect_events (sample_device false) (after_header unknown_world))
       (after_header unknown_world)).
Proof.
  apply (unknown_type_still_tears_down LittleEndianHost (counting_driver false)
           (sample_device false) initial_locals unknown_world
           (header_buf unknown_world) 28%nat (after_header unknown_world)
           (sample_request 7 0 0)).
  - reflexivity.
  - vm_compute. reflexivity.
  - vm_compute. reflexivity.
  - vm_compute. reflexivity.
  - vm_compute. discriminate.
Defined.

Lemma Disconnect_before_Connect_blocks_witness :
  let w' := snd (CreateDevice LittleEndianHost (counting_driver false)
                   "/dev/nbd0" 1048576 (sample_world [] io_ok 0)) in
  Disconnect (sample_device false) w' = (Halt Blocked, w').
Proof.
  intros w'.
  apply (Disconnect_before_Connect_blocks LittleEndianHost
           (counting_driver false) "/dev/nbd0" 1048576
           (sample_world [] io_ok 0) (sample_device false) None w').
  reflexivity.
Defined.

Lemma reply_write_failure_is_logged_witness :
  exists t,
    trace (snd (loop_body LittleEndianHost (sample_device false)
                  initial_locals broken_pipe_world))
    = trace (after_header broken_pipe_world) ++ t /\
    In (EvLog "Write error, when sending reply header:" (Some (Errno 32))) t /\
    exists l',
      fst (loop_body LittleEndianHost (sample_device false) initial_locals
             broken_pipe_world) = Val (Continue l') /\
      forall fuel,
        serve LittleEndianHost (S fuel) (sample_device false) initial_locals
              broken_pipe_world
        = serve LittleEndianHost fuel (sample_device false) l'
            (snd (loop_body LittleEndianHost (sample_device false)
                    initial_locals broken_pipe_world)).
Proof.
  apply (reply_write_failure_is_logged LittleEndianHost (counting_driver false)
           (sample_device false) initial_locals broken_pipe_world
           (header_buf broken_pipe_world) 28%nat
           (after_header broken_pipe_world)
           (sample_request NBD_CMD_FLUSH 0 0) (Errno 32) []).
  - reflexivity.
  - vm_compute. reflexivity.
  - vm_compute. reflexivity.
  - right. left. reflexivity.
  - reflexivity.
Defined.

Lemma loop_decodes_every_header_witness :
  exists t,
    trace (snd (serve LittleEndianHost 3 (sample_device false) initial_locals
                  (sample_world [RdOk bad_magic_header; RdErr EOF] io_ok 1)))
    = trace (sample_world [RdOk bad_magic_header; RdErr EOF] io_ok 1) ++ t /\
    forallb decoded_only t = true /\
    forall cause, ~ In (EvLog "Received invalid NBD request:" cause) t.
Proof.
  apply (loop_decodes_every_header LittleEndianHost (counting_driver false) 3
           (sample_device false) initial_locals
           (sample_world [RdOk bad_magic_header; RdErr EOF] io_ok 1)).
  - reflexivity.
  - vm_compute. lia.
Defined.


(** ** The request as the backend sees it *)

Section BackendCalls.

Variable arch : host.
Context {St : Type}.
Variable buseDriver : BuseInterface St.

Lemma slice_firstn (b : list byte) (n lo hi : nat) :
  (lo <= hi)%nat -> (hi <= n)%nat -> slice (firstn n b) lo hi = slice b lo hi.
Proof.
  intros H1 H2. unfold slice.
  rewrite !firstn_skipn_comm, firstn_firstn.
  replace (Nat.min (lo + (hi - lo)) n) with (lo + (hi - lo))%nat by lia.
  reflexivity.
Qed.

(** Past the bytes a short delivery has overwritten, the buffer is as it
    was. *)
Lemma slice_after_prefix (bs old : list byte) (lo hi : nat) :
  (List.length bs <= lo)%nat -> (List.length bs <= List.length old)%nat ->
  slice (bs ++ skipn (List.length bs) old) lo hi = slice old lo hi.
Proof.
  intros H1 H2. unfold slice. f_equal.
  rewrite skipn_app, skipn_skipn.
  rewrite (skipn_all2 bs) by lia. cbn [app]. f_equal. lia.
Qed.

(** X15: the byte count of the header read is ignored.  When the kernel
    delivers no more than the first eight bytes of a header, the request is
    decoded all the same, and its handle, offset and length are those the
    buffer still holds from the request before. *)
Theorem short_header_uses_stale_bytes l (w : world St) bs c :
  chan_in w = RdOk bs :: c ->
  bs <> [] ->
  (List.length bs <= 8)%nat ->
  (28 <= List.length (buf l))%nat ->
  let b := bs ++ skipn (List.length bs) (buf l) in
  fp_Read (buf l) w = (Val (b, List.length bs, None), after_read c (EvRead bs) w) /\
  exists q,
    binary_Read (Endian arch) b = Some q /\
    Handle q = slice (buf l) 8 16 /\
    From q = Uint64 (Endian arch) (slice (buf l) 16 24) /\
    Length q = Uint32 (Endian arch) (slice (buf l) 24 28).
Proof.
  intros Hc Hne Hk Hlen b.
  assert (Hd : firstn (List.length (buf l)) bs = bs)
    by (apply firstn_all2; lia).
  split.
  - destruct (fp_Read_cases (buf l) w)
      as [(H0 & _) | [(_ & Hc' & _) | [(e1 & c' & _ & Hc' & _) |
          [(bs' & c' & _ & Hc' & Hd' & _) | (bs' & c' & d & _ & Hc' & -> & _ & E)]]]];
      try lia; rewrite Hc in Hc'; try discriminate;
      injection Hc' as <- <-.
    + rewrite Hd in Hd'. contradiction.
    + rewrite Hd in E. exact E.
  - assert (Hb : (28 <= List.length b)%nat).
    { unfold b. rewrite length_app, length_skipn. lia. }
    unfold binary_Read, binary_Size_request.
    apply Nat.ltb_ge in Hb. rewrite Hb. cbv zeta.
    eexists. split; [reflexivity|].
    cbn [Handle From Length].
    rewrite !slice_firstn by lia.
    unfold b. rewrite !slice_after_prefix by lia.
    repeat split; reflexivity.
Qed.

(** X16: over a backend that leaves the length of the buffer it is given,
    as a Go callee has to, the reply to a READ is a header of 16 bytes
    followed by exactly [Length] bytes, whether [ReadAt] failed or not. *)
Theorem read_reply_has_requested_length bd l (w : world St) b n
    (w1 : world St) q :
  (forall s p off,
     List.length (snd (fst (ReadAt buseDriver s p off))) = List.length p) ->
  op bd = dispatch_table arch buseDriver ->
  fp_Read (buf l) w = (Val (b, n, None), w1) ->
  binary_Read (Endian arch) b = Some q ->
  Type_ q = NBD_CMD_READ ->
  exists t hdr payload,
    trace (snd (loop_body arch bd l w)) = trace w1 ++ t /\
    written t = [hdr; payload] /\
    List.length hdr = 16%nat /\
    List.length payload = Z.to_nat (Length q) /\
    List.length (emitted t) = (16 + Z.to_nat (Length q))%nat.
Proof.
  intros Hkeep Hop Hr Hd T.
  destruct (binary_Read_some _ _ _ Hd) as (_ & Hh & _).
  destruct (served_pass arch buseDriver bd l w b n w1 q Hop Hr Hd (or_introl T))
    as (t & Ht & [(_ & T' & _) | (_ & Hw & _)]).
  - rewrite T in T'. discriminate.
  - rewrite T in Hw. cbn [Z.eqb NBD_CMD_READ] in Hw.
    match type of Hw with
    | written t = encode_reply ?o ?r :: _ =>
        destruct (encode_reply_handle o r Hh) as (_ & Hl)
    end.
    assert (Hp : List.length
                   (snd (fst (ReadAt buseDriver (drv w1) (make_bytes (Length q))
                                     (uint (From q)))))
                 = Z.to_nat (Length q))
      by (rewrite Hkeep; unfold make_bytes; apply repeat_length).
    do 3 eexists. split; [exact Ht|]. split; [exact Hw|].
    split; [exact Hl|]. split; [exact Hp|].
    unfold emitted. rewrite Hw. cbn [List.concat].
    rewrite !length_app, Hl, Hp. cbn [List.length]. lia.
Qed.

Lemma backend_call_READ q chunk :
  Type_ q = NBD_CMD_READ ->
  backend_call_of q chunk = [EvReadAt (Z.to_nat (Length q)) (uint (From q))].
Proof. intros T. unfold backend_call_of. rewrite T. reflexivity. Qed.

Lemma backend_call_WRITE q chunk :
  Type_ q = NBD_CMD_WRITE ->
  backend_call_of q chunk = [EvWriteAt chunk (uint (From q))].
Proof. intros T. unfold backend_call_of. rewrite T. reflexivity. Qed.

Lemma backend_call_DISC q chunk :
  Type_ q = NBD_CMD_DISC -> backend_call_of q chunk = [EvDriverDisconnect].
Proof. intros T. unfold backend_call_of. rewrite T. reflexivity. Qed.

Lemma backend_call_FLUSH q chunk :
  Type_ q = NBD_CMD_FLUSH -> backend_call_of q chunk = [EvFlush].
Proof. intros T. unfold backend_call_of. rewrite T. reflexivity. Qed.

Lemma backend_call_TRIM q chunk :
  Type_ q = NBD_CMD_TRIM ->
  backend_call_of q chunk = [EvTrim (uint (From q)) (uint (Length q))].
Proof. intros T. unfold backend_call_of. rewrite T. reflexivity. Qed.

(** The backend events of the four handlers that take nothing off the
    channel. *)
Lemma handler_backend_events q rep (w : world St) :
  (Type_ q = NBD_CMD_READ ->
   exists t,
     trace (snd (opDeviceRead arch buseDriver (make_bytes (Length q)) q rep w))
     = trace w ++ t /\
     filter is_backend t = backend_call_of q (make_bytes (Length q))) /\
  (Type_ q = NBD_CMD_DISC ->
   exists t,
     trace (snd (opDeviceDisconnect buseDriver (make_bytes (Length q)) q rep w))
     = trace w ++ t /\
     filter is_backend t = backend_call_of q (make_bytes (Length q))) /\
  (Type_ q = NBD_CMD_FLUSH ->
   exists t,
     trace (snd (opDeviceFlush arch buseDriver (make_bytes (Length q)) q rep w))
     = trace w ++ t /\
     filter is_backend t = backend_call_of q (make_bytes (Length q))) /\
  (Type_ q = NBD_CMD_TRIM ->
   exists t,
     trace (snd (opDeviceTrim arch buseDriver (make_bytes (Length q)) q rep w))
     = trace w ++ t /\
     filter is_backend t = backend_call_of q (make_bytes (Length q))).
Proof.
  destruct w as [ci co io sp ofr opr d rc tr].
  repeat split; intros T.
  - rewrite (backend_call_READ q _ T).
    replace (Z.to_nat (Length q)) with (List.length (make_bytes (Length q)))
      by apply repeat_length.
    unfold opDeviceRead, send_header, binary_Write, fp_Write, log_Println,
      driver_ReadAt, bind, ret, get, emit, set_drv, set_chan_out;
      cbn -[make_bytes].
    destruct (ReadAt buseDriver d (make_bytes (Length q)) (uint (From q)))
      as [[s' p'] [e1|]];
      cbn -[make_bytes]; destruct co as [|[e2|] [|[e3|] co]];
      cbn -[make_bytes];
      eexists; (split; [repeat rewrite <- app_assoc; reflexivity|]);
      reflexivity.
  - rewrite (backend_call_DISC q _ T).
    unfold opDeviceDisconnect, log_Println, driver_Disconnect, bind, ret, get,
      emit, set_drv; cbn.
    eexists; (split; [repeat rewrite <- app_assoc; reflexivity|]); reflexivity.
  - rewrite (backend_call_FLUSH q _ T).
    unfold opDeviceFlush, send_header, binary_Write, fp_Write, log_Println,
      driver_Flush, bind, ret, get, emit, set_drv, set_chan_out; cbn.
    destruct (Flush buseDriver d) as [s' [e1|]];
      cbn; destruct co as [|[e2|] co]; cbn;
      eexists; (split; [repeat rewrite <- app_assoc; reflexivity|]);
      reflexivity.
  - rewrite (backend_call_TRIM q _ T).
    unfold opDeviceTrim, send_header, binary_Write, fp_Write, log_Println,
      driver_Trim, bind, ret, get, emit, set_drv, set_chan_out; cbn.
    destruct (Trim buseDriver d (uint (From q)) (uint (Length q)))
      as [s' [e1|]];
      cbn; destruct co as [|[e2|] co]; cbn;
      eexists; (split; [repeat rewrite <- app_assoc; reflexivity|]);
      reflexivity.
Qed.

(** The backend event of the WRITE handler once its payload read has
    returned. *)
Lemma handler_backend_events_WRITE q rep (w : world St) c n' (w1' : world St) :
  Type_ q = NBD_CMD_WRITE ->
  fp_Read (make_bytes (Length q)) w = (Val (c, n', None), w1') ->
  exists t,
    trace (snd (opDeviceWrite arch buseDriver (make_bytes (Length q)) q rep w))
    = trace w ++ t /\
    filter is_backend t = [EvWriteAt c (uint (From q))].
Proof.
  intros T Hp. unfold opDeviceWrite. rewrite (bind_val _ _ _ _ _ Hp).
  cbn beta iota.
  destruct (fp_Read_cases (make_bytes (Length q)) w)
    as [(_ & E) | [(_ & _ & E) | [(e1 & c' & _ & _ & E) |
        [(bs & c' & _ & _ & _ & E) | (bs & c' & d0 & _ & _ & _ & _ & E)]]]];
    rewrite E in Hp; try discriminate;
    remember (make_bytes (Length q)) as mb;
    injection Hp as <- _ <-;
    destruct w as [ci co io sp ofr opr d rc tr];
    unfold after_read, send_header, binary_Write, fp_Write, log_Println,
      driver_WriteAt, bind, ret, get, emit, set_drv, set_chan_out; cbn.
  - destruct (WriteAt buseDriver d mb (uint (From q))) as [s' [e1|]];
      cbn; destruct co as [|[e2|] co]; cbn;
      eexists; (split; [repeat rewrite <- app_assoc; reflexivity|]);
      reflexivity.
  - destruct (WriteAt buseDriver d (d0 ++ skipn (List.length d0) mb)
                      (uint (From q))) as [s' [e1|]];
      cbn; destruct co as [|[e2|] co]; cbn;
      eexists; (split; [repeat rewrite <- app_assoc; reflexivity|]);
      reflexivity.
Qed.

(** X17: a pass over a request of one of the five kinds calls the backend
    exactly once, with the offset and the length of that request and, for a
    WRITE whose payload read returned, with the buffer that read left. *)
Theorem backend_called_once_per_request bd l (w : world St) b n
    (w1 : world St) q :
  op bd = dispatch_table arch buseDriver ->
  fp_Read (buf l) w = (Val (b, n, None), w1) ->
  binary_Read (Endian arch) b = Some q ->
  Type_ q <= NBD_CMD_TRIM ->
  (Type_ q = NBD_CMD_WRITE ->
   exists c n' w1',
     fp_Read (make_bytes (Length q)) w1 = (Val (c, n', None), w1')) ->
  exists t,
    trace (snd (loop_body arch bd l w)) = trace w1 ++ t /\
    filter is_backend t = backend_call_of q (chunk_for q w1).
Proof.
  intros Hop Hr Hd Hle Hpay.
  destruct (binary_Read_some _ _ _ Hd) as (_ & _ & Ht).
  destruct (handler_backend_events q
              (set_Error 0 (set_Handle (Handle q) (reply l))) w1)
    as (HR & HD & HF & HT).
  assert (Hc : forall T, Type_ q = T -> T <> NBD_CMD_WRITE ->
                 chunk_for q w1 = make_bytes (Length q)).
  { intros T E Hn. unfold chunk_for. rewrite E.
    destruct (T =? NBD_CMD_WRITE) eqn:Eq; [|reflexivity].
    apply Z.eqb_eq in Eq. contradiction. }
  assert (Hcases : Type_ q = NBD_CMD_READ \/ Type_ q = NBD_CMD_WRITE \/
                   Type_ q = NBD_CMD_DISC \/ Type_ q = NBD_CMD_FLUSH \/
                   Type_ q = NBD_CMD_TRIM).
  { unfold NBD_CMD_READ, NBD_CMD_WRITE, NBD_CMD_DISC, NBD_CMD_FLUSH,
      NBD_CMD_TRIM in *. lia. }
  destruct Hcases as [T | [T | [T | [T | T]]]].
  - rewrite (loop_body_snd arch bd l w b n w1 q
               (opDeviceRead arch buseDriver) Hr Hd)
      by (rewrite Hop, T; apply dispatch_lookup_READ).
    rewrite (Hc _ T) by discriminate. exact (HR T).
  - destruct (Hpay T) as (c & n' & w1' & Hp).
    rewrite (loop_body_snd arch bd l w b n w1 q
               (opDeviceWrite arch buseDriver) Hr Hd)
      by (rewrite Hop, T; apply dispatch_lookup_WRITE).
    destruct (handler_backend_events_WRITE q
                (set_Error 0 (set_Handle (Handle q) (reply l))) w1 c n' w1' T Hp)
      as (t & Ht1 & Ht2).
    exists t. split; [exact Ht1|].
    rewrite Ht2, (backend_call_WRITE q _ T).
    unfold chunk_for. rewrite T, Hp. reflexivity.
  - rewrite (loop_body_snd arch bd l w b n w1 q
               (opDeviceDisconnect buseDriver) Hr Hd)
      by (rewrite Hop, T; apply dispatch_lookup_DISC).
    rewrite (Hc _ T) by discriminate. exact (HD T).
  - rewrite (loop_body_snd arch bd l w b n w1 q
               (opDeviceFlush arch buseDriver) Hr Hd)
      by (rewrite Hop, T; apply dispatch_lookup_FLUSH).
    rewrite (Hc _ T) by discriminate. exact (HF T).
  - rewrite (loop_body_snd arch bd l w b n w1 q
               (opDeviceTrim arch buseDriver) Hr Hd)
      by (rewrite Hop, T; apply dispatch_lookup_TRIM).
    rewrite (Hc _ T) by discriminate. exact (HT T).
Qed.

End BackendCalls.

Lemma short_header_uses_stale_bytes_witness :
  let bs := firstn 8 (sample_header NBD_CMD_FLUSH 0 0) in
  let b := bs ++ skipn (List.length bs) (buf stale_locals) in
  fp_Read (buf stale_locals) short_header_world
  = (Val (b, List.length bs, None),
     after_read [] (EvRead bs) short_header_world) /\
  exists q,
    binary_Read (Endian LittleEndianHost) b = Some q /\
    Handle q = slice (buf stale_locals) 8 16 /\
    From q = Uint64 (Endian LittleEndianHost) (slice (buf stale_locals) 16 24) /\
    Length q = Uint32 (Endian LittleEndianHost) (slice (buf stale_locals) 24 28).
Proof.
  apply (short_header_uses_stale_bytes LittleEndianHost stale_locals
           short_header_world (firstn 8 (sample_header NBD_CMD_FLUSH 0 0)) []).
  - reflexivity.
  - vm_compute. discriminate.
  - vm_compute. lia.
  - vm_compute. lia.
Defined.

Lemma read_reply_has_requested_length_witness :
  exists t hdr payload,
    trace (snd (loop_body LittleEndianHost (sample_device false)
                  initial_locals read_world))
    = trace (after_header read_world) ++ t /\
    written t = [hdr; payload] /\
    List.length hdr = 16%nat /\
    List.length payload = Z.to_nat (Length (sample_request NBD_CMD_READ 0 2)) /\
    List.length (emitted t)
    = (16 + Z.to_nat (Length (sample_request NBD_CMD_READ 0 2)))%nat.
Proof.
  apply (read_reply_has_requested_length LittleEndianHost
           (counting_driver false) (sample_device false) initial_locals
           read_world (header_buf read_world) 28%nat (after_header read_world)
           (sample_request NBD_CMD_READ 0 2)).
  - intros s p off. simpl. apply length_map.
  - reflexivity.
  - vm_compute. reflexivity.
  - vm_compute. reflexivity.
  - reflexivity.
Defined.

Lemma backend_called_once_per_request_witness :
  exists t,
    trace (snd (loop_body LittleEndianHost (sample_device false)
                  initial_locals short_write_world))
    = trace (after_header short_write_world) ++ t /\
    filter is_backend t
    = backend_call_of (sample_request NBD_CMD_WRITE 0 2)
        (chunk_for (sample_request NBD_CMD_WRITE 0 2)
                   (after_header short_write_world)).
Proof.
  apply (backend_called_once_per_request LittleEndianHost
           (counting_driver false) (sample_device false) initial_locals
           short_write_world (header_buf short_write_world) 28%nat
           (after_header short_write_world)
           (sample_request NBD_CMD_WRITE 0 2)).
  - reflexivity.
  - vm_compute. reflexivity.
  - vm_compute. reflexivity.
  - vm_compute. discriminate.
  - intros _.
    exists [x07; x00], 1%nat,
      (snd (fp_Read (make_bytes 2) (after_header short_write_world))).
    vm_compute. reflexivity.
Defined.
